(** * WareHouseSystem-FE: login, warehouse list and pagination

  A shallow embedding of the Angular front end:
  - [AuthServiceService.login]          (auth-service.service.ts)
  - [WarehouseService.getAll]           (warehouse.service.ts)
  - [LoginComponent.onSubmit]           (login.component.ts)
  - [AppRoutingModule.routes]           (app-routing.module.ts)
  - [WarehouseComponent]                (warehouse.component.ts)
  - [AppModule.providers]               (app.module.ts)
  and, from the specification, the session data model and [logout]
  ([Session]), which the source does not contain.

  Conventions.
  - A JavaScript string is a [string] that holds its UTF-8 encoding (a
    lone surrogate in its three-byte form), as the literals of this file
    do; the JavaScript [.length], which counts UTF-16 code units, is
    [js_length].  Message literals are kept as they are written in the
    source.
  - A JavaScript number that holds a page index or a count is a [Z].
  - Component methods run in a state monad over the component's fields
    and the browser (local storage, the ordered list of effects, and the
    number of HTTP subscriptions that still wait for their reply).
  - [HttpClient] observables are cold and emit once: subscribing sends
    the request; the reply is delivered later, by [deliver], to the
    callbacks given to [subscribe]. *)

From Stdlib Require Import ZArith Ascii String List Lia.
From stdpp Require Import base option list gmap strings pretty.

Local Open Scope string_scope.
Local Open Scope list_scope.

(** ** A small state monad *)

Definition State (S A : Type) : Type := S -> A * S.

#[global] Instance State_ret {S} : MRet (State S) := fun A a s => (a, s).
#[global] Instance State_bind {S} : MBind (State S) :=
  fun A B f m s => let '(a, s') := m s in f a s'.

Definition get {S} : State S S := fun s => (s, s).
Definition modify {S} (f : S -> S) : State S unit := fun s => (tt, f s).
Definition exec {S A} (m : State S A) (s : S) : S := snd (m s).
Definition eval {S A} (m : State S A) (s : S) : A := fst (m s).

(** ** JavaScript helpers *)

(** [!s] on a string: only the empty string is falsy. *)
Definition falsy (s : string) : bool := Nat.eqb (String.length s) 0.

(** A continuation byte of a UTF-8 sequence, [10xxxxxx]. *)
Definition is_continuation (b : ascii) : bool :=
  (128 <=? nat_of_ascii b)%nat && (nat_of_ascii b <? 192)%nat.

(** [s.length]: the number of UTF-16 code units of the string.  A
    sequence of one, two or three bytes is one code unit, a sequence of
    four bytes is a surrogate pair, two code units; a byte that starts no
    complete sequence counts as one code unit. *)
Fixpoint js_length (s : string) : nat :=
  match s with
  | EmptyString => 0
  | String b s1 =>
      if (192 <=? nat_of_ascii b)%nat && (nat_of_ascii b <? 224)%nat then
        match s1 with
        | String c1 s2 =>
            if is_continuation c1 then S (js_length s2) else S (js_length s1)
        | _ => S (js_length s1)
        end
      else if (224 <=? nat_of_ascii b)%nat && (nat_of_ascii b <? 240)%nat then
        match s1 with
        | String c1 (String c2 s3) =>
            if is_continuation c1 && is_continuation c2
            then S (js_length s3) else S (js_length s1)
        | _ => S (js_length s1)
        end
      else if (240 <=? nat_of_ascii b)%nat && (nat_of_ascii b <? 248)%nat then
        match s1 with
        | String c1 (String c2 (String c3 s4)) =>
            if is_continuation c1 && is_continuation c2 && is_continuation c3
            then S (S (js_length s4)) else S (js_length s1)
        | _ => S (js_length s1)
        end
      else S (js_length s1)
  end.

(** [o || d] where [o] is a possibly undefined string. *)
Definition or_else (o : option string) (d : string) : string :=
  match o with
  | Some s => if falsy s then d else s
  | None => d
  end.

(** [s.startsWith(t)] and [s.includes(t)]. *)
Fixpoint startsWith (s t : string) : bool :=
  match t, s with
  | EmptyString, _ => true
  | String _ _, EmptyString => false
  | String b t', String a s' => Ascii.eqb a b && startsWith s' t'
  end.

Fixpoint includes (s t : string) : bool :=
  startsWith s t ||
  match s with
  | EmptyString => false
  | String _ s' => includes s' t
  end.

(** The members that every object literal inherits from
    [Object.prototype]; each of them is a function or an object, hence
    truthy. *)
Definition Object_prototype : list string :=
  ["constructor"; "__defineGetter__"; "__defineSetter__"; "hasOwnProperty";
   "__lookupGetter__"; "__lookupSetter__"; "isPrototypeOf";
   "propertyIsEnumerable"; "toString"; "valueOf"; "__proto__"; "toLocaleString"].

(** What an expression typed [string] may hold after a lookup [o[key]] in
    an object literal of strings: a string, or an inherited member. *)
Inductive JsValue :=
| Str (s : string)
| Inherited (key : string).

(** [o[key]] for an object literal [o] whose own values are strings;
    [None] is [undefined]. *)
Definition member (o : gmap string string) (key : string) : option JsValue :=
  match o !! key with
  | Some v => Some (Str v)
  | None => if bool_decide (key ∈ Object_prototype) then Some (Inherited key) else None
  end.

(** ** DTOs *)

Record LoginRequest := {
  username : string;
  password : string
}.

Record AuthResponse := {
  access_token : string;
  refresh_token : string;
  expire_access_token : string;
  expire_refresh_token : string;
  ip : string
}.

(** The fields of [WareHouseResponse] that the component reads; the two
    enums are string enums compared with [===] against the filter strings. *)
Record WareHouseResponse := {
  name : string;
  code : string;
  address : string;
  status : string;
  ware_house_type : string
}.

Record PageResponse := {
  content : list WareHouseResponse;
  total_elements : Z;
  total_pages : Z
}.

Record ApiResponse := {
  success : bool;
  error_code : option string;
  message : option string;
  data : option PageResponse;
  field_errors : list (string * string);
  timestamp : string
}.

(** ** HTTP *)

Inductive HttpMethod := GET | POST.

Record HttpRequest := {
  req_method : HttpMethod;
  req_url : string;
  req_params : list (string * string);
  req_headers : list (string * string);
  req_body : option LoginRequest
}.

(** [HttpErrorResponse]: [error.status] and [error.error?.message]. *)
Record HttpErrorResponse := {
  error_status : Z;
  error_message : option string
}.

(** What a subscriber of an [HttpClient] observable receives. *)
Inductive HttpResult (A : Type) :=
| Next (a : A)
| Error (e : HttpErrorResponse).
Arguments Next {A} a.
Arguments Error {A} e.

(** A request-side interceptor: it may read local storage and rewrite the
    request before it is sent. *)
Definition HttpInterceptor : Type := gmap string string -> HttpRequest -> HttpRequest.

Module AppModule.

(** [providers: []]: no [HTTP_INTERCEPTORS] are registered, so requests
    leave as the services build them and replies reach the subscriber
    as the backend sends them. *)
Definition providers : list HttpInterceptor := [].

End AppModule.

(** ** The browser and its effects *)

Inductive ToastKind := ToastSuccess | ToastWarning | ToastError.

Inductive Effect :=
| HttpSend (req : HttpRequest)
| SetItem (key value : string)
| ConsoleError (label : string) (e : HttpErrorResponse)
| Toast (kind : ToastKind) (msg title : string)
| Navigate (commands : list string).

Record Browser := {
  localStorage : gmap string string;
  effects : list Effect;
  inflight : nat
}.

Record World (C : Type) := {
  component : C;
  browser : Browser
}.
Arguments component {C} _.
Arguments browser {C} _.
Arguments Build_World {C} _ _.

(** The requests that reached the network, oldest first. *)
Definition network (b : Browser) : list HttpRequest :=
  omap (fun e => match e with HttpSend r => Some r | _ => None end) (effects b).

Section Primitives.
Context {C : Type}.

Definition update (f : C -> C) : State (World C) unit :=
  modify (fun w => {| component := f (component w); browser := browser w |}).

Definition emit (e : Effect) : State (World C) unit :=
  modify (fun w =>
    {| component := component w;
       browser := {| localStorage := localStorage (browser w);
                     effects := effects (browser w) ++ [e];
                     inflight := inflight (browser w) |} |}).

(** [localStorage.setItem(key, value)] *)
Definition localStorage_setItem (key value : string) : State (World C) unit :=
  modify (fun w =>
    {| component := component w;
       browser := {| localStorage := <[key := value]> (localStorage (browser w));
                     effects := effects (browser w) ++ [SetItem key value];
                     inflight := inflight (browser w) |} |}).

(** Subscribing to an [HttpClient] observable: the request passes the
    registered interceptors and is sent; one more reply is awaited. *)
Definition subscribe (req : HttpRequest) : State (World C) unit :=
  modify (fun w =>
    let sent := foldl (fun r (i : HttpInterceptor) => i (localStorage (browser w)) r)
                      req AppModule.providers in
    {| component := component w;
       browser := {| localStorage := localStorage (browser w);
                     effects := effects (browser w) ++ [HttpSend sent];
                     inflight := S (inflight (browser w)) |} |}).

(** The arrival of a reply: it is handed to the callbacks of a waiting
    subscription; without one nothing happens. *)
Definition settle {A} (reply : HttpResult A)
    (next : A -> State (World C) unit)
    (error : HttpErrorResponse -> State (World C) unit) : State (World C) unit :=
  w ← get;
  match inflight (browser w) with
  | O => mret tt
  | S n =>
      modify (fun w =>
        {| component := component w;
           browser := {| localStorage := localStorage (browser w);
                         effects := effects (browser w);
                         inflight := n |} |});;
      match reply with
      | Next a => next a
      | Error e => error e
      end
  end.

Definition toastr_success (msg title : string) := emit (Toast ToastSuccess msg title).
Definition toastr_warning (msg title : string) := emit (Toast ToastWarning msg title).
Definition toastr_error (msg title : string) := emit (Toast ToastError msg title).
Definition router_navigate (commands : list string) := emit (Navigate commands).
Definition console_error (label : string) (e : HttpErrorResponse) := emit (ConsoleError label e).
End Primitives.

(** ** auth-service.service.ts *)

Module AuthServiceService.

Definition apiUrl : string := "http://localhost:8080/api/v1/auth".

(** [this.http.post<AuthResponse>(`${this.apiUrl}/login`, request)] *)
Definition login (request : LoginRequest) : HttpRequest :=
  {| req_method := POST;
     req_url := apiUrl +:+ "/login";
     req_params := [];
     req_headers := [];
     req_body := Some request |}.

End AuthServiceService.

(** ** login.component.ts *)

Module LoginComponent.

(** The reactive form: its value and whether its controls are touched. *)
Record FormGroup := {
  value : LoginRequest;
  touched : bool
}.

(** Angular's [Validators.required] and [Validators.minLength(n)] on a
    string control, as "is valid"; both read [value.length].  [minLength]
    accepts the empty value and leaves it to [required]. *)
Definition isEmptyInputValue (v : string) : bool := Nat.eqb (js_length v) 0.
Definition required (v : string) : bool := negb (isEmptyInputValue v).
Definition minLength (n : nat) (v : string) : bool :=
  isEmptyInputValue v || (n <=? js_length v)%nat.

(** [this.loginForm.invalid] for the group built in [ngOnInit]:
    username: required; password: required, minLength(6). *)
Definition invalid (f : FormGroup) : bool :=
  negb (required (username (value f)) &&
        (required (password (value f)) && minLength 6 (password (value f)))).

Record t := {
  loginForm : FormGroup;
  isLoading : bool;
  errorMessage : string;
  hidePassword : bool;
  submitted : bool
}.

Definition set_loginForm (f : FormGroup) (c : t) : t :=
  {| loginForm := f; isLoading := isLoading c; errorMessage := errorMessage c;
     hidePassword := hidePassword c; submitted := submitted c |}.
Definition set_isLoading (b : bool) (c : t) : t :=
  {| loginForm := loginForm c; isLoading := b; errorMessage := errorMessage c;
     hidePassword := hidePassword c; submitted := submitted c |}.
Definition set_errorMessage (m : string) (c : t) : t :=
  {| loginForm := loginForm c; isLoading := isLoading c; errorMessage := m;
     hidePassword := hidePassword c; submitted := submitted c |}.
Definition set_hidePassword (b : bool) (c : t) : t :=
  {| loginForm := loginForm c; isLoading := isLoading c; errorMessage := errorMessage c;
     hidePassword := b; submitted := submitted c |}.
Definition set_submitted (b : bool) (c : t) : t :=
  {| loginForm := loginForm c; isLoading := isLoading c; errorMessage := errorMessage c;
     hidePassword := hidePassword c; submitted := b |}.

Definition markAllAsTouched (c : t) : t :=
  set_loginForm {| value := value (loginForm c); touched := true |} c.

(** The field initialisers followed by [ngOnInit]. *)
Definition init : t :=
  {| loginForm := {| value := {| username := ""; password := "" |}; touched := false |};
     isLoading := false;
     errorMessage := "";
     hidePassword := true;
     submitted := false |}.

Definition togglePassword : State (World t) unit :=
  update (fun c => set_hidePassword (negb (hidePassword c)) c).

Definition onSubmit : State (World t) unit :=
  update (set_submitted true);;
  w ← get;
  if invalid (loginForm (component w)) then
    update markAllAsTouched;;
    toastr_warning "Vui lòng điền đầy đủ thông tin đăng nhập" "Thiếu thông tin"
  else
    update (set_isLoading true);;
    update (set_errorMessage "");;
    let v := value (loginForm (component w)) in
    subscribe (AuthServiceService.login {| username := username v; password := password v |}).

(** The [next] callback of the subscription in [onSubmit]. *)
Definition onSubmit_next (response : AuthResponse) : State (World t) unit :=
  update (set_isLoading false);;
  localStorage_setItem "access_token" (access_token response);;
  localStorage_setItem "refresh_token" (refresh_token response);;
  toastr_success "Chào mừng bạn quay trở lại!" "Đăng nhập thành công";;
  router_navigate ["/dashboard"].

(** The [error] callback of the subscription in [onSubmit]. *)
Definition onSubmit_error (error : HttpErrorResponse) : State (World t) unit :=
  console_error "" error;;
  update (set_errorMessage "Tên đăng nhập hoặc mật khẩu không đúng");;
  update (set_isLoading false);;
  toastr_error
    (or_else (error_message error) "Tên đăng nhập hoặc mật khẩu không đúng")
    "Đăng nhập thất bại".

(** The backend's reply to the login request arrives. *)
Definition deliver (reply : HttpResult AuthResponse) : State (World t) unit :=
  settle reply onSubmit_next onSubmit_error.

(** A whole login call: the submission and the arrival of its reply. *)
Definition loginCall (reply : HttpResult AuthResponse) : State (World t) unit :=
  onSubmit;; deliver reply.

End LoginComponent.

(** ** app-routing.module.ts *)

Module AppRoutingModule.

Inductive Page := LoginPage | RegisterPage.

Inductive RouteTarget :=
| component (p : Page)
| redirectTo (path : string).

Record Route := {
  path : string;
  pathMatch_full : bool;
  target : RouteTarget
}.

Definition routes : list Route := [
  {| path := ""; pathMatch_full := true; target := redirectTo "login" |};
  {| path := "login"; pathMatch_full := false; target := component LoginPage |};
  {| path := "register"; pathMatch_full := false; target := component RegisterPage |};
  (* optional: catch all *)
  {| path := "**"; pathMatch_full := false; target := redirectTo "login" |}
].

(** The segments of a URL path: ["/dashboard"] has the one segment
    ["dashboard"]. *)
Fixpoint segments_from (cur s : string) : list string :=
  match s with
  | EmptyString => if falsy cur then [] else [cur]
  | String c s' =>
      if Ascii.eqb c "/"%char
      then (if falsy cur then segments_from "" s' else cur :: segments_from "" s')
      else segments_from (cur +:+ String c EmptyString) s'
  end.

Definition segments (url : string) : list string := segments_from "" url.

(** The router's matching of a route without children: the wildcard
    matches every URL, the empty path the empty URL, and any other path
    the URL made of that one segment. *)
Definition matches (r : Route) (url : list string) : bool :=
  if String.eqb (path r) "**" then true
  else if falsy (path r) then Nat.eqb (length url) 0
  else bool_decide (url = [path r]).

(** Routes are tried in order, the first match wins, and a redirect
    starts the matching again at its target. *)
Fixpoint resolve (fuel : nat) (url : list string) : option Page :=
  match fuel with
  | O => None
  | S fuel' =>
      match List.find (fun r => matches r url) routes with
      | Some r =>
          match target r with
          | component p => Some p
          | redirectTo to => resolve fuel' (segments to)
          end
      | None => None
      end
  end.

End AppRoutingModule.

(** ** warehouse.service.ts *)

Module WarehouseService.
Section WithBaseURL.

(** [BaseURL.API_URL], from the environment file. *)
Variable API_URL : string.

Definition apiUrl : string := API_URL +:+ "warehouse".

(** [getAll(page = 0, size = 10)]: a GET of [apiUrl] whose [HttpParams]
    are [page] and [size], each through [toString()]; an argument that is
    left out takes its default. *)
Definition getAll (page size : option Z) : HttpRequest :=
  {| req_method := GET;
     req_url := apiUrl;
     req_params := [("page", pretty (default 0%Z page));
                    ("size", pretty (default 10%Z size))];
     req_headers := [];
     req_body := None |}.

End WithBaseURL.
End WarehouseService.

(** ** warehouse.component.ts *)

Module WarehouseComponent.

(** [viewMode: 'grid' | 'list'] *)
Inductive ViewMode := grid | list_.

Record t := {
  wareHouses : list WareHouseResponse;
  selectedWarehouse : option WareHouseResponse;
  loading : bool;
  viewMode : ViewMode;
  currentPage : Z;
  pageSize : Z;
  totalElements : Z;
  totalPages : Z;
  searchTerm : string;
  selectedStatus : string;
  selectedType : string
}.

Definition init : t :=
  {| wareHouses := [];
     selectedWarehouse := None;
     loading := false;
     viewMode := grid;
     currentPage := 0;
     pageSize := 10;
     totalElements := 0;
     totalPages := 0;
     searchTerm := "";
     selectedStatus := "";
     selectedType := "" |}.

Definition set_loading (b : bool) (c : t) : t :=
  {| wareHouses := wareHouses c; selectedWarehouse := selectedWarehouse c;
     loading := b; viewMode := viewMode c; currentPage := currentPage c;
     pageSize := pageSize c; totalElements := totalElements c;
     totalPages := totalPages c; searchTerm := searchTerm c;
     selectedStatus := selectedStatus c; selectedType := selectedType c |}.

Definition set_currentPage (p : Z) (c : t) : t :=
  {| wareHouses := wareHouses c; selectedWarehouse := selectedWarehouse c;
     loading := loading c; viewMode := viewMode c; currentPage := p;
     pageSize := pageSize c; totalElements := totalElements c;
     totalPages := totalPages c; searchTerm := searchTerm c;
     selectedStatus := selectedStatus c; selectedType := selectedType c |}.

(** The three filter fields, as the inputs of the template set them. *)
Definition set_filters (term status type : string) (c : t) : t :=
  {| wareHouses := wareHouses c; selectedWarehouse := selectedWarehouse c;
     loading := loading c; viewMode := viewMode c; currentPage := currentPage c;
     pageSize := pageSize c; totalElements := totalElements c;
     totalPages := totalPages c; searchTerm := term;
     selectedStatus := status; selectedType := type |}.

(** The three assignments of the [next] callback. *)
Definition set_page (d : PageResponse) (c : t) : t :=
  {| wareHouses := content d; selectedWarehouse := selectedWarehouse c;
     loading := loading c; viewMode := viewMode c; currentPage := currentPage c;
     pageSize := pageSize c; totalElements := total_elements d;
     totalPages := total_pages d; searchTerm := searchTerm c;
     selectedStatus := selectedStatus c; selectedType := selectedType c |}.

Section WithEnvironment.

Variable API_URL : string.

(** [String.prototype.toLowerCase]. *)
Variable toLowerCase : string -> string.

Definition loadWarehouses : State (World t) unit :=
  update (set_loading true);;
  w ← get;
  subscribe (WarehouseService.getAll API_URL
               (Some (currentPage (component w))) (Some (pageSize (component w)))).

Definition loadWarehouses_next (response : ApiResponse) : State (World t) unit :=
  match success response, data response with
  | true, Some d => update (set_page d)
  | _, _ => mret tt
  end;;
  update (set_loading false).

Definition loadWarehouses_error (error : HttpErrorResponse) : State (World t) unit :=
  console_error "Error fetching warehouses:" error;;
  update (set_loading false).

Definition ngOnInit : State (World t) unit := loadWarehouses.

(** The predicate given to [filter] in [getFilteredWarehouses]. *)
Definition matchesFilters (c : t) (warehouse : WareHouseResponse) : bool :=
  let matchesSearch :=
    falsy (searchTerm c) ||
    includes (toLowerCase (name warehouse)) (toLowerCase (searchTerm c)) ||
    includes (toLowerCase (code warehouse)) (toLowerCase (searchTerm c)) ||
    includes (toLowerCase (address warehouse)) (toLowerCase (searchTerm c)) in
  let matchesStatus :=
    falsy (selectedStatus c) || String.eqb (status warehouse) (selectedStatus c) in
  let matchesType :=
    falsy (selectedType c) || String.eqb (ware_house_type warehouse) (selectedType c) in
  matchesSearch && matchesStatus && matchesType.

Definition getFilteredWarehouses : State (World t) (list WareHouseResponse) :=
  w ← get;
  mret (List.filter (matchesFilters (component w)) (wareHouses (component w))).

Definition onPageChange (page : Z) : State (World t) unit :=
  update (set_currentPage page);;
  loadWarehouses.

Definition nextPage : State (World t) unit :=
  w ← get;
  if (currentPage (component w) <? totalPages (component w) - 1)%Z then
    update (fun c => set_currentPage (currentPage c + 1) c);;
    loadWarehouses
  else mret tt.

Definition previousPage : State (World t) unit :=
  w ← get;
  if (0 <? currentPage (component w))%Z then
    update (fun c => set_currentPage (currentPage c - 1) c);;
    loadWarehouses
  else mret tt.

(** The backend's reply to a warehouse list request arrives. *)
Definition deliver (reply : HttpResult ApiResponse) : State (World t) unit :=
  settle reply loadWarehouses_next loadWarehouses_error.

(** What can happen to the page after [ngOnInit]: the user pages forward
    or back, or a reply arrives. *)
Inductive Event :=
| CallNextPage
| CallPreviousPage
| Reply (reply : HttpResult ApiResponse).

Definition step (e : Event) : State (World t) unit :=
  match e with
  | CallNextPage => nextPage
  | CallPreviousPage => previousPage
  | Reply reply => deliver reply
  end.

Definition run (evs : list Event) (w : World t) : World t :=
  foldl (fun w e => exec (step e) w) w evs.

End WithEnvironment.

Definition onSearch : State (World t) unit := mret tt.

Definition onFilterChange : State (World t) unit := mret tt.

Section WithWareHouseStatus.

(** The members of the string enum [WareHouseStatus]. *)
Variables ACTIVE INACTIVE UNDER_MAINTENANCE : string.

Definition getActiveCount : State (World t) nat :=
  c ← get;
  mret (length (List.filter (fun w => String.eqb (status w) ACTIVE)
                            (wareHouses (component c)))).

Definition getInactiveCount : State (World t) nat :=
  c ← get;
  mret (length (List.filter (fun w => String.eqb (status w) INACTIVE)
                            (wareHouses (component c)))).

Definition getMaintenanceCount : State (World t) nat :=
  c ← get;
  mret (length (List.filter (fun w => String.eqb (status w) UNDER_MAINTENANCE)
                            (wareHouses (component c)))).

End WithWareHouseStatus.

Definition statusMap : gmap string string :=
  <["ACTIVE" := "Hoạt động"]>
    (<["INACTIVE" := "Ngừng hoạt động"]>
       (<["UNDER_MAINTENANCE" := "Bảo trì"]> ∅)).

Definition typeMap : gmap string string :=
  <["MAIN" := "Kho chính"]>
    (<["SATELLITE" := "Kho vệ tinh"]>
       (<["TRANSIT" := "Kho trung chuyển"]>
          (<["RETURN" := "Kho hoàn trả"]> ∅))).

(** [map[key || ''] || key || 'Không xác định'], the body shared by the
    two label helpers; [key] is [None] when the argument is [undefined]. *)
Definition labelOf (map : gmap string string) (key : option string) : JsValue :=
  match member map (or_else key "") with
  | Some (Str v) => if falsy v then Str (or_else key "Không xác định") else Str v
  | Some (Inherited k) => Inherited k
  | None => Str (or_else key "Không xác định")
  end.

Definition getStatusLabel (status : option string) : JsValue := labelOf statusMap status.

Definition getTypeLabel (type : option string) : JsValue := labelOf typeMap type.

End WarehouseComponent.

(** ** The session component of the specification

    The login component writes the two tokens itself; the source has no
    token store object, no session state and no logout.  The data model
    and the logout path below follow the specification. *)

Module Session.

(** Modelled from the spec: the TokenPair of the data model,
    [{accessToken, refreshToken, accessExpiry, refreshExpiry}]; the
    expiries are kept as the strings the backend sends. *)
Record TokenPair := {
  accessToken : string;
  refreshToken : string;
  accessExpiry : string;
  refreshExpiry : string
}.

(** The pair that a login reply carries. *)
Definition tokenPair (r : AuthResponse) : TokenPair :=
  {| accessToken := access_token r;
     refreshToken := refresh_token r;
     accessExpiry := expire_access_token r;
     refreshExpiry := expire_refresh_token r |}.

(** Modelled from the spec: UserInfo, [{id, username, email, fullName}]. *)
Record UserInfo := {
  id : Z;
  userName : string;
  email : string;
  fullName : string
}.

(** Modelled from the spec: SessionState,
    [{isAuthenticated, user, roles}]. *)
Record SessionState := {
  isAuthenticated : bool;
  user : option UserInfo;
  roles : gset string
}.

(** Modelled from the spec: the Auth State Publisher together with the
    Token Store it owns: the stored pair (or null), the current session
    state, and the states emitted to the subscribers so far. *)
Record Publisher := {
  tokenStore : option TokenPair;
  current : SessionState;
  emitted : list SessionState
}.

(** Modelled from the spec: Token Store [save(pair)], which overwrites
    any existing pair. *)
Definition save (pair : TokenPair) (p : Publisher) : Publisher :=
  {| tokenStore := Some pair; current := current p; emitted := emitted p |}.

(** Modelled from the spec: Token Store [load()], the last saved pair,
    or null if never saved or cleared. *)
Definition load (p : Publisher) : option TokenPair := tokenStore p.

(** Modelled from the spec: Token Store [clear()], which removes all
    stored credential data. *)
Definition clear (p : Publisher) : Publisher :=
  {| tokenStore := None; current := current p; emitted := emitted p |}.

(** Modelled from the spec: the state emitted by [setUnauthenticated],
    [SessionState{isAuthenticated:false, user:null, roles:{}}]. *)
Definition unauthenticated : SessionState :=
  {| isAuthenticated := false; user := None; roles := ∅ |}.

(** Modelled from the spec: [setUnauthenticated()] instructs Token
    Store.clear, then emits the unauthenticated state. *)
Definition setUnauthenticated (p : Publisher) : Publisher :=
  let p' := clear p in
  {| tokenStore := tokenStore p';
     current := unauthenticated;
     emitted := emitted p' ++ [unauthenticated] |}.

(** Modelled from the spec: [setAuthenticated(pair, user)] instructs
    Token Store.save, then emits the new state. *)
Definition setAuthenticated (pair : TokenPair) (u : UserInfo) (rs : gset string)
    (p : Publisher) : Publisher :=
  let p' := save pair p in
  let s := {| isAuthenticated := true; user := Some u; roles := rs |} in
  {| tokenStore := tokenStore p'; current := s; emitted := emitted p' ++ [s] |}.

(** Modelled from the spec: Auth Gateway [logout()], which invokes
    [setUnauthenticated] and needs no network round trip. *)
Definition logout (p : Publisher) : Publisher := setUnauthenticated p.

End Session.

(** ** Concrete inputs *)

Definition emptyBrowser : Browser :=
  {| localStorage := ∅; effects := []; inflight := 0 |}.

Definition loginWorld (u p : string) : World LoginComponent.t :=
  {| component :=
       LoginComponent.set_loginForm
         {| LoginComponent.value := {| username := u; password := p |};
            LoginComponent.touched := true |}
         LoginComponent.init;
     browser := emptyBrowser |}.

Definition sampleTokens : AuthResponse :=
  {| access_token := "eyJhbGciOiJIUzI1NiJ9.a";
     refresh_token := "eyJhbGciOiJIUzI1NiJ9.r";
     expire_access_token := "2026-01-30T10:00:00";
     expire_refresh_token := "2026-02-06T09:00:00";
     ip := "127.0.0.1" |}.

Definition invalidCredentials : HttpErrorResponse :=
  {| error_status := 401; error_message := Some "Invalid credentials" |}.

Definition signedInBrowser : Browser :=
  {| localStorage := {[ "access_token" := "eyJhbGciOiJIUzI1NiJ9.a" ]};
     effects := [];
     inflight := 0 |}.

Definition localApi : string := "http://localhost:8080/api/v1/".

Definition unauthorized : HttpErrorResponse :=
  {| error_status := 401; error_message := Some "Unauthorized" |}.

Definition pageOf (ws : list WareHouseResponse) (pages : Z) : HttpResult ApiResponse :=
  Next {| success := true;
          error_code := None;
          message := None;
          data := Some {| content := ws; total_elements := Z.of_nat (length ws);
                          total_pages := pages |};
          field_errors := [];
          timestamp := "2026-01-30T10:00:00" |}.

Definition mainWarehouse : WareHouseResponse :=
  {| name := "Kho Ha Noi"; code := "WH-001"; address := "Cau Giay";
     status := "ACTIVE"; ware_house_type := "MAIN" |}.

Definition transitWarehouse : WareHouseResponse :=
  {| name := "Kho Da Nang"; code := "WH-002"; address := "Hai Chau";
     status := "INACTIVE"; ware_house_type := "TRANSIT" |}.

(** Lower-casing of the letters A to Z, the other code units unchanged. *)
Fixpoint asciiLower (s : string) : string :=
  match s with
  | EmptyString => EmptyString
  | String c s' =>
      let n := nat_of_ascii c in
      String (if ((65 <=? n) && (n <=? 90))%nat then ascii_of_nat (n + 32) else c)
             (asciiLower s')
  end.

(** ** Request cycles and page bounds *)

(** The refresh call of the specification, [POST /api/v1/auth/refresh]. *)
Definition is_refresh (r : HttpRequest) : bool :=
  match req_method r with
  | POST => includes (req_url r) "/auth/refresh"
  | GET => false
  end.

(** Among the requests sent for one original request: the refresh calls,
    and the sends of the original request after the first one. *)
Definition refresh_attempts (sent : list HttpRequest) : nat :=
  length (List.filter is_refresh sent).

Definition retries (sent : list HttpRequest) : nat :=
  length (List.filter (fun r => negb (is_refresh r)) sent) - 1.

(** The total that a reply makes the component store, if any. *)
Definition reported_total (e : WarehouseComponent.Event) : option Z :=
  match e with
  | WarehouseComponent.Reply (Next r) =>
      match success r, data r with
      | true, Some d => Some (total_pages d)
      | _, _ => None
      end
  | _ => None
  end.

(** No reply of the run lowers the [totalPages] the component holds when
    the reply arrives. *)
Fixpoint never_shrinks (API_URL : string) (evs : list WarehouseComponent.Event)
    (w : World WarehouseComponent.t) : Prop :=
  match evs with
  | [] => True
  | e :: evs' =>
      match reported_total e with
      | Some n => (WarehouseComponent.totalPages (component w) <= n)%Z
      | None => True
      end /\
      never_shrinks API_URL evs' (exec (WarehouseComponent.step API_URL e) w)
  end.

(** The bound that every step keeps while the page count does not shrink. *)
Definition within (c : WarehouseComponent.t) : Prop :=
  (0 <= WarehouseComponent.currentPage c)%Z /\
  (WarehouseComponent.currentPage c <= Z.max 0 (WarehouseComponent.totalPages c - 1))%Z.

(** The page opened in a browser: the field initialisers, then
    [ngOnInit]. *)
Definition openPage (API_URL : string) (b : Browser) : World WarehouseComponent.t :=
  exec (WarehouseComponent.ngOnInit API_URL)
    {| component := WarehouseComponent.init; browser := b |}.

(** ** Inputs and notions for the further properties *)

(** A reply that does not carry a page: an error, an envelope with
    [success = false], or one without [data]. *)
Definition carries_no_page (reply : HttpResult ApiResponse) : Prop :=
  match reply with
  | Next r => success r = false \/ data r = None
  | Error _ => True
  end.

(** What an error reply adds to the effects: the console entry. *)
Definition logged (reply : HttpResult ApiResponse) : list Effect :=
  match reply with
  | Next _ => []
  | Error e => [ConsoleError "Error fetching warehouses:" e]
  end.

(** A warehouse page showing [ws] on page [page] of [pages], with
    [waiting] replies outstanding. *)
Definition warehousePage (ws : list WareHouseResponse) (page pages : Z) (waiting : nat)
    : World WarehouseComponent.t :=
  {| component :=
       {| WarehouseComponent.wareHouses := ws;
          WarehouseComponent.selectedWarehouse := None;
          WarehouseComponent.loading := true;
          WarehouseComponent.viewMode := WarehouseComponent.grid;
          WarehouseComponent.currentPage := page;
          WarehouseComponent.pageSize := 10;
          WarehouseComponent.totalElements := Z.of_nat (length ws);
          WarehouseComponent.totalPages := pages;
          WarehouseComponent.searchTerm := "";
          WarehouseComponent.selectedStatus := "";
          WarehouseComponent.selectedType := "" |};
     browser := {| localStorage := ∅; effects := []; inflight := waiting |} |}.

Definition failedEnvelope : ApiResponse :=
  {| success := false;
     error_code := Some "WH_001";
     message := Some "Warehouse service unavailable";
     data := None;
     field_errors := [];
     timestamp := "2026-01-30T10:00:00" |}.

(** The requests of the warehouse page: GETs of the warehouse URL for some
    page, with the given size. *)
Definition is_page_request (API_URL : string) (size : Z) (r : HttpRequest) : Prop :=
  exists page : Z, r = WarehouseService.getAll API_URL (Some page) (Some size).

(** The effects the warehouse page may have: a page request of the given
    size, or a console entry. *)
Definition page_effect (API_URL : string) (size : Z) (e : Effect) : Prop :=
  match e with
  | HttpSend r => is_page_request API_URL size r
  | ConsoleError _ _ => True
  | _ => False
  end.

(** * Properties *)

(** Unfolds the monad and the browser primitives down to the states. *)
Ltac run_state :=
  unfold toastr_success, toastr_warning, toastr_error, router_navigate,
    console_error, settle in *;
  unfold emit, localStorage_setItem, subscribe, update, AppModule.providers in *;
  unfold exec, eval, mbind, mret, State_bind, State_ret, get, modify in *;
  cbn [fst snd foldl component browser localStorage effects inflight] in *.

Lemma network_app (b : Browser) (l : list Effect) (es : list Effect) :
  effects b = l ++ es ->
  network b = omap (fun e => match e with HttpSend r => Some r | _ => None end) l ++
              omap (fun e => match e with HttpSend r => Some r | _ => None end) es.
Proof. intros H. unfold network. rewrite H. apply omap_app. Qed.

(** ** String length *)

Ltac case_js_length :=
  repeat match goal with
         | |- context [if ?c then _ else _] => destruct c
         | |- context [match ?x with EmptyString => _ | String _ _ => _ end] => destruct x
         end.

Lemma js_length_zero (s : string) : js_length s = 0%nat <-> s = "".
Proof.
  split; [| now intros ->].
  destruct s as [| b s1]; [reflexivity |].
  cbn [js_length]. case_js_length; discriminate.
Qed.

Lemma js_length_le_bounded (n : nat) :
  forall s : string, (String.length s <= n)%nat -> (js_length s <= String.length s)%nat.
Proof.
  induction n as [| n IH]; intros s Hn.
  - destruct s; cbn in *; lia.
  - destruct s as [| b s1]; [cbn; lia |].
    cbn [js_length]. case_js_length; cbn [String.length] in *;
      match goal with
      | |- context [js_length ?t] =>
          pose proof (IH t); cbn [String.length] in *; lia
      end.
Qed.

(** The code units of a string are at most as many as its bytes. *)
Lemma js_length_le (s : string) : (js_length s <= String.length s)%nat.
Proof. now apply (js_length_le_bounded (String.length s)). Qed.

(** One code unit for a character of the basic plane, whatever the number
    of its bytes, and two for a character beyond it. *)
Lemma js_length_examples :
  js_length "secret1" = 7%nat /\ js_length "đđđ" = 3%nat /\
  js_length "mật khẩu" = 8%nat /\ js_length "😀" = 2%nat.
Proof. repeat split. Qed.

(** ** The login form *)

Lemma invalid_iff (f : LoginComponent.FormGroup) :
  LoginComponent.invalid f = true <->
  username (LoginComponent.value f) = "" \/
  (js_length (password (LoginComponent.value f)) < 6)%nat.
Proof.
  unfold LoginComponent.invalid, LoginComponent.required, LoginComponent.minLength,
    LoginComponent.isEmptyInputValue.
  destruct f as [[u p] tch]; cbn [LoginComponent.value username password].
  rewrite <- (js_length_zero u).
  destruct (Nat.eqb_spec (js_length u) 0) as [Eu | Eu]; cbn [negb andb].
  - split; [intros _; now left | reflexivity].
  - destruct (Nat.eqb_spec (js_length p) 0) as [E | E]; cbn [negb andb orb].
    + split; [intros _; right; lia | reflexivity].
    + destruct (Nat.leb_spec 6 (js_length p)) as [L | L]; cbn [negb].
      * split; [discriminate | intros [H | H]; [contradiction | lia]].
      * split; [intros _; now right | reflexivity].
Qed.

Lemma eta_LoginRequest (v : LoginRequest) :
  {| username := username v; password := password v |} = v.
Proof. now destruct v. Qed.

(** What [onSubmit] does with a valid form: one login request is sent. *)
Lemma onSubmit_valid (w : World LoginComponent.t) :
  LoginComponent.invalid (LoginComponent.loginForm (component w)) = false ->
  exec LoginComponent.onSubmit w =
  {| component :=
       LoginComponent.set_errorMessage ""
         (LoginComponent.set_isLoading true
            (LoginComponent.set_submitted true (component w)));
     browser :=
       {| localStorage := localStorage (browser w);
          effects := effects (browser w) ++
            [HttpSend (AuthServiceService.login
                         (LoginComponent.value (LoginComponent.loginForm (component w))))];
          inflight := S (inflight (browser w)) |} |}.
Proof.
  intros Hv. destruct w as [c b]. cbn [component] in Hv.
  unfold LoginComponent.onSubmit. run_state.
  cbn [LoginComponent.set_submitted LoginComponent.loginForm]. rewrite Hv.
  cbn [fst snd component browser localStorage effects inflight foldl].
  now rewrite eta_LoginRequest.
Qed.

(** What [onSubmit] does with an invalid form: a warning, and nothing else. *)
Lemma onSubmit_invalid (w : World LoginComponent.t) :
  LoginComponent.invalid (LoginComponent.loginForm (component w)) = true ->
  exec LoginComponent.onSubmit w =
  {| component :=
       LoginComponent.markAllAsTouched
         (LoginComponent.set_submitted true (component w));
     browser :=
       {| localStorage := localStorage (browser w);
          effects := effects (browser w) ++
            [Toast ToastWarning "Vui lòng điền đầy đủ thông tin đăng nhập" "Thiếu thông tin"];
          inflight := inflight (browser w) |} |}.
Proof.
  intros Hv. destruct w as [c b]. cbn [component] in Hv.
  unfold LoginComponent.onSubmit. run_state.
  cbn [LoginComponent.set_submitted LoginComponent.loginForm]. rewrite Hv.
  reflexivity.
Qed.

Lemma exec_bind {S A B} (m : State S A) (k : State S B) (s : S) :
  exec (m ;; k) s = exec k (exec m s).
Proof. unfold exec, mbind, State_bind. now destruct (m s). Qed.

Lemma settle_waiting {C A} (reply : HttpResult A)
    (next : A -> State (World C) unit)
    (error : HttpErrorResponse -> State (World C) unit)
    (c : C) (ls : gmap string string) (es : list Effect) (n : nat) :
  exec (settle reply next error)
    {| component := c;
       browser := {| localStorage := ls; effects := es; inflight := S n |} |} =
  exec (match reply with Next a => next a | Error e => error e end)
    {| component := c;
       browser := {| localStorage := ls; effects := es; inflight := n |} |}.
Proof. run_state. now destruct reply. Qed.

(** A login call answered with a token payload, step by step. *)
Lemma loginCall_next (w : World LoginComponent.t) (r : AuthResponse) :
  LoginComponent.invalid (LoginComponent.loginForm (component w)) = false ->
  exec (LoginComponent.loginCall (Next r)) w =
  {| component :=
       LoginComponent.set_isLoading false
         (LoginComponent.set_errorMessage ""
            (LoginComponent.set_isLoading true
               (LoginComponent.set_submitted true (component w))));
     browser :=
       {| localStorage :=
            <["refresh_token" := refresh_token r]>
              (<["access_token" := access_token r]> (localStorage (browser w)));
          effects := effects (browser w) ++
            [HttpSend (AuthServiceService.login
                         (LoginComponent.value (LoginComponent.loginForm (component w))));
             SetItem "access_token" (access_token r);
             SetItem "refresh_token" (refresh_token r);
             Toast ToastSuccess "Chào mừng bạn quay trở lại!" "Đăng nhập thành công";
             Navigate ["/dashboard"]];
          inflight := inflight (browser w) |} |}.
Proof.
  intros Hv. unfold LoginComponent.loginCall.
  rewrite exec_bind, (onSubmit_valid w Hv).
  unfold LoginComponent.deliver. rewrite settle_waiting.
  unfold LoginComponent.onSubmit_next. run_state.
  now rewrite <- !app_assoc.
Qed.

(** A login call answered with an error, step by step. *)
Lemma loginCall_error (w : World LoginComponent.t) (e : HttpErrorResponse) :
  LoginComponent.invalid (LoginComponent.loginForm (component w)) = false ->
  exec (LoginComponent.loginCall (Error e)) w =
  {| component :=
       LoginComponent.set_isLoading false
         (LoginComponent.set_errorMessage "Tên đăng nhập hoặc mật khẩu không đúng"
            (LoginComponent.set_errorMessage ""
               (LoginComponent.set_isLoading true
                  (LoginComponent.set_submitted true (component w)))));
     browser :=
       {| localStorage := localStorage (browser w);
          effects := effects (browser w) ++
            [HttpSend (AuthServiceService.login
                         (LoginComponent.value (LoginComponent.loginForm (component w))));
             ConsoleError "" e;
             Toast ToastError
               (or_else (error_message e) "Tên đăng nhập hoặc mật khẩu không đúng")
               "Đăng nhập thất bại"];
          inflight := inflight (browser w) |} |}.
Proof.
  intros Hv. unfold LoginComponent.loginCall.
  rewrite exec_bind, (onSubmit_valid w Hv).
  unfold LoginComponent.deliver. rewrite settle_waiting.
  unfold LoginComponent.onSubmit_error. run_state.
  now rewrite <- !app_assoc.
Qed.

(** The [next] callback on its own. *)
Lemma onSubmit_next_storage (r : AuthResponse) (w : World LoginComponent.t) :
  localStorage (browser (exec (LoginComponent.onSubmit_next r) w)) =
  <["refresh_token" := refresh_token r]>
    (<["access_token" := access_token r]> (localStorage (browser w))).
Proof. unfold LoginComponent.onSubmit_next. now run_state. Qed.

(** ** Login: the claims *)

(** C4: when the credentials are malformed (the username is empty, or the
    password is shorter than 6 characters, counted as [.length] counts
    them), [onSubmit] performs no network call: no request is sent and no
    reply is awaited; the only effect is the local warning. *)
Theorem onSubmit_malformed_sends_nothing (w : World LoginComponent.t) :
  username (LoginComponent.value (LoginComponent.loginForm (component w))) = "" \/
  (js_length
     (password (LoginComponent.value (LoginComponent.loginForm (component w)))) < 6)%nat ->
  network (browser (exec LoginComponent.onSubmit w)) = network (browser w) /\
  inflight (browser (exec LoginComponent.onSubmit w)) = inflight (browser w) /\
  localStorage (browser (exec LoginComponent.onSubmit w)) = localStorage (browser w) /\
  effects (browser (exec LoginComponent.onSubmit w)) =
    effects (browser w) ++
    [Toast ToastWarning "Vui lòng điền đầy đủ thông tin đăng nhập" "Thiếu thông tin"].
Proof.
  intros Hbad. apply invalid_iff in Hbad.
  rewrite (onSubmit_invalid w Hbad). cbn [browser effects inflight localStorage].
  repeat split.
  erewrite network_app by (cbn [effects]; reflexivity).
  cbn [omap list_omap]. now rewrite app_nil_r.
Qed.

Lemma onSubmit_malformed_sends_nothing_witness :
  network (browser (exec LoginComponent.onSubmit (loginWorld "alice" "12345"))) =
    network (browser (loginWorld "alice" "12345")) /\
  inflight (browser (exec LoginComponent.onSubmit (loginWorld "alice" "12345"))) =
    inflight (browser (loginWorld "alice" "12345")) /\
  localStorage (browser (exec LoginComponent.onSubmit (loginWorld "alice" "12345"))) =
    localStorage (browser (loginWorld "alice" "12345")) /\
  effects (browser (exec LoginComponent.onSubmit (loginWorld "alice" "12345"))) =
    effects (browser (loginWorld "alice" "12345")) ++
    [Toast ToastWarning "Vui lòng điền đầy đủ thông tin đăng nhập" "Thiếu thông tin"].
Proof.
  apply (onSubmit_malformed_sends_nothing (loginWorld "alice" "12345")).
  right. vm_compute. lia.
Defined.

(** C3: when the backend rejects a login call, whatever the status of the
    error reply, no token is written: local storage, the only
    authentication state the client holds, is what it was before the
    call; nothing is stored and no navigation happens; the error is shown
    to the user with the backend's message, or the default one. *)
Theorem login_rejected_changes_no_auth_state
    (w : World LoginComponent.t) (e : HttpErrorResponse) :
  LoginComponent.invalid (LoginComponent.loginForm (component w)) = false ->
  localStorage (browser (exec (LoginComponent.loginCall (Error e)) w)) =
    localStorage (browser w) /\
  inflight (browser (exec (LoginComponent.loginCall (Error e)) w)) =
    inflight (browser w) /\
  effects (browser (exec (LoginComponent.loginCall (Error e)) w)) =
    effects (browser w) ++
    [HttpSend (AuthServiceService.login
                 (LoginComponent.value (LoginComponent.loginForm (component w))));
     ConsoleError "" e;
     Toast ToastError
       (or_else (error_message e) "Tên đăng nhập hoặc mật khẩu không đúng")
       "Đăng nhập thất bại"].
Proof.
  intros Hv. rewrite (loginCall_error w e Hv).
  cbn [browser effects inflight localStorage]. repeat split.
Qed.

Lemma login_rejected_changes_no_auth_state_witness :
  localStorage (browser (exec (LoginComponent.loginCall (Error invalidCredentials))
                           (loginWorld "alice" "wrong-password"))) =
    localStorage (browser (loginWorld "alice" "wrong-password")) /\
  inflight (browser (exec (LoginComponent.loginCall (Error invalidCredentials))
                       (loginWorld "alice" "wrong-password"))) =
    inflight (browser (loginWorld "alice" "wrong-password")) /\
  effects (browser (exec (LoginComponent.loginCall (Error invalidCredentials))
                      (loginWorld "alice" "wrong-password"))) =
    effects (browser (loginWorld "alice" "wrong-password")) ++
    [HttpSend (AuthServiceService.login
                 {| username := "alice"; password := "wrong-password" |});
     ConsoleError "" invalidCredentials;
     Toast ToastError "Invalid credentials" "Đăng nhập thất bại"].
Proof.
  apply (login_rejected_changes_no_auth_state
           (loginWorld "alice" "wrong-password") invalidCredentials).
  vm_compute. reflexivity.
Defined.

(** C2, as stated, fails: after a successful login the durable client
    state holds the two tokens and nothing else, so it is the same
    whoever logged in; no reading of it yields the logged-in user.  Two
    users who receive the same token payload end in the same storage. *)
Lemma login_success_records_no_user :
  ~ exists user_of : gmap string string -> string,
      forall (w : World LoginComponent.t) (r : AuthResponse),
        LoginComponent.invalid (LoginComponent.loginForm (component w)) = false ->
        user_of (localStorage (browser (exec (LoginComponent.loginCall (Next r)) w))) =
        username (LoginComponent.value (LoginComponent.loginForm (component w))).
Proof.
  intros [user_of H].
  pose proof (H (loginWorld "alice" "secret1") sampleTokens eq_refl) as Ha.
  pose proof (H (loginWorld "bob" "secret2") sampleTokens eq_refl) as Hb.
  rewrite (loginCall_next (loginWorld "alice" "secret1") sampleTokens eq_refl) in Ha.
  rewrite (loginCall_next (loginWorld "bob" "secret2") sampleTokens eq_refl) in Hb.
  cbn [browser localStorage loginWorld component LoginComponent.set_loginForm
       LoginComponent.loginForm LoginComponent.value username] in Ha, Hb.
  rewrite Ha in Hb. discriminate Hb.
Qed.

(** C2, amended: a login call answered with a token payload stores the
    access token under ["access_token"] and the refresh token under
    ["refresh_token"], shows the success message and then asks the router
    for ["/dashboard"], in this order; the request sent carries the form's
    username and password; the loading flag is cleared.  Nothing else is
    written: the client keeps no session state beside the two tokens. *)
Theorem login_success_stores_tokens_then_navigates
    (w : World LoginComponent.t) (r : AuthResponse) :
  LoginComponent.invalid (LoginComponent.loginForm (component w)) = false ->
  localStorage (browser (exec (LoginComponent.loginCall (Next r)) w)) !! "access_token" =
    Some (access_token r) /\
  localStorage (browser (exec (LoginComponent.loginCall (Next r)) w)) !! "refresh_token" =
    Some (refresh_token r) /\
  (forall k : string, k <> "access_token" -> k <> "refresh_token" ->
     localStorage (browser (exec (LoginComponent.loginCall (Next r)) w)) !! k =
     localStorage (browser w) !! k) /\
  effects (browser (exec (LoginComponent.loginCall (Next r)) w)) =
    effects (browser w) ++
    [HttpSend (AuthServiceService.login
                 (LoginComponent.value (LoginComponent.loginForm (component w))));
     SetItem "access_token" (access_token r);
     SetItem "refresh_token" (refresh_token r);
     Toast ToastSuccess "Chào mừng bạn quay trở lại!" "Đăng nhập thành công";
     Navigate ["/dashboard"]] /\
  LoginComponent.isLoading (component (exec (LoginComponent.loginCall (Next r)) w)) = false /\
  inflight (browser (exec (LoginComponent.loginCall (Next r)) w)) = inflight (browser w).
Proof.
  intros Hv. rewrite (loginCall_next w r Hv).
  cbn [browser component effects inflight localStorage LoginComponent.isLoading
       LoginComponent.set_isLoading].
  repeat split.
  - rewrite lookup_insert_ne by discriminate. apply lookup_insert_eq.
  - apply lookup_insert_eq.
  - intros k Ha Hr. rewrite !lookup_insert_ne by congruence. reflexivity.
Qed.

Lemma login_success_stores_tokens_then_navigates_witness :
  localStorage (browser (exec (LoginComponent.loginCall (Next sampleTokens))
                           (loginWorld "alice" "secret1"))) !! "access_token" =
    Some "eyJhbGciOiJIUzI1NiJ9.a" /\
  localStorage (browser (exec (LoginComponent.loginCall (Next sampleTokens))
                           (loginWorld "alice" "secret1"))) !! "refresh_token" =
    Some "eyJhbGciOiJIUzI1NiJ9.r" /\
  (forall k : string, k <> "access_token" -> k <> "refresh_token" ->
     localStorage (browser (exec (LoginComponent.loginCall (Next sampleTokens))
                              (loginWorld "alice" "secret1"))) !! k =
     localStorage (browser (loginWorld "alice" "secret1")) !! k) /\
  effects (browser (exec (LoginComponent.loginCall (Next sampleTokens))
                      (loginWorld "alice" "secret1"))) =
    effects (browser (loginWorld "alice" "secret1")) ++
    [HttpSend (AuthServiceService.login {| username := "alice"; password := "secret1" |});
     SetItem "access_token" "eyJhbGciOiJIUzI1NiJ9.a";
     SetItem "refresh_token" "eyJhbGciOiJIUzI1NiJ9.r";
     Toast ToastSuccess "Chào mừng bạn quay trở lại!" "Đăng nhập thành công";
     Navigate ["/dashboard"]] /\
  LoginComponent.isLoading
    (component (exec (LoginComponent.loginCall (Next sampleTokens))
                  (loginWorld "alice" "secret1"))) = false /\
  inflight (browser (exec (LoginComponent.loginCall (Next sampleTokens))
                       (loginWorld "alice" "secret1"))) =
    inflight (browser (loginWorld "alice" "secret1")).
Proof.
  apply (login_success_stores_tokens_then_navigates
           (loginWorld "alice" "secret1") sampleTokens).
  vm_compute. reflexivity.
Defined.

(** With the route table of the application, ["/dashboard"] is no route
    of its own: the catch-all sends it to the login page. *)
Lemma dashboard_resolves_to_login :
  AppRoutingModule.resolve (S (length AppRoutingModule.routes))
    (AppRoutingModule.segments "/dashboard") = Some AppRoutingModule.LoginPage.
Proof. reflexivity. Qed.

(** C5, as stated, fails: only the two token strings are written, so two
    pairs that differ in an expiry leave the same storage, and no load
    can return all four fields of what was saved. *)
Lemma token_expiries_not_persisted :
  ~ exists load : gmap string string -> option Session.TokenPair,
      forall (r : AuthResponse) (w : World LoginComponent.t),
        load (localStorage (browser (exec (LoginComponent.onSubmit_next r) w))) =
        Some (Session.tokenPair r).
Proof.
  intros [load H].
  pose proof (H sampleTokens (loginWorld "alice" "secret1")) as H1.
  pose proof (H {| access_token := access_token sampleTokens;
                   refresh_token := refresh_token sampleTokens;
                   expire_access_token := "2027-01-01T00:00:00";
                   expire_refresh_token := expire_refresh_token sampleTokens;
                   ip := ip sampleTokens |}
                (loginWorld "alice" "secret1")) as H2.
  rewrite onSubmit_next_storage in H1, H2.
  cbn [access_token refresh_token sampleTokens] in H1, H2.
  rewrite H1 in H2. discriminate H2.
Qed.

(** C5, amended: the two token strings round-trip through local storage:
    after the tokens of a pair are stored, reading ["access_token"] and
    ["refresh_token"] returns the pair's access token and refresh token;
    these two writes are all that is stored, the expiries are not. *)
Theorem stored_tokens_round_trip (r : AuthResponse) (w : World LoginComponent.t) :
  localStorage (browser (exec (LoginComponent.onSubmit_next r) w)) !! "access_token" =
    Some (Session.accessToken (Session.tokenPair r)) /\
  localStorage (browser (exec (LoginComponent.onSubmit_next r) w)) !! "refresh_token" =
    Some (Session.refreshToken (Session.tokenPair r)) /\
  localStorage (browser (exec (LoginComponent.onSubmit_next r) w)) =
    <["refresh_token" := Session.refreshToken (Session.tokenPair r)]>
      (<["access_token" := Session.accessToken (Session.tokenPair r)]>
         (localStorage (browser w))).
Proof.
  rewrite onSubmit_next_storage. cbn [Session.tokenPair Session.accessToken Session.refreshToken].
  repeat split.
  - rewrite lookup_insert_ne by discriminate. apply lookup_insert_eq.
  - apply lookup_insert_eq.
Qed.

(** C6: [login] is an HTTP POST to the path [/api/v1/auth/login] on the
    configured host, its body is the submitted login request (username
    and password) and nothing else is attached; subscribing sends exactly
    this request, and the subscriber's [next] callback receives the
    backend's [AuthResponse] as it is. *)
Theorem login_posts_credentials (request : LoginRequest) :
  AuthServiceService.login request =
    {| req_method := POST;
       req_url := "http://localhost:8080" +:+ "/api/v1/auth/login";
       req_params := [];
       req_headers := [];
       req_body := Some {| username := username request; password := password request |} |} /\
  (forall (C : Type) (w : World C),
     effects (browser (exec (subscribe (AuthServiceService.login request)) w)) =
     effects (browser w) ++ [HttpSend (AuthServiceService.login request)]) /\
  (forall (C : Type) (w : World C) (r : AuthResponse)
          (next : AuthResponse -> State (World C) unit)
          (error : HttpErrorResponse -> State (World C) unit),
     exec (subscribe (AuthServiceService.login request);; settle (Next r) next error) w =
     exec (next r)
       {| component := component w;
          browser := {| localStorage := localStorage (browser w);
                        effects := effects (browser w) ++
                                   [HttpSend (AuthServiceService.login request)];
                        inflight := inflight (browser w) |} |}).
Proof.
  split; [| split].
  - rewrite eta_LoginRequest. reflexivity.
  - intros C w. now run_state.
  - intros C w r next error. rewrite exec_bind.
    destruct w as [c [ls es n]]. unfold subscribe at 1.
    unfold exec at 2, modify, AppModule.providers.
    cbn [snd foldl component browser localStorage effects inflight].
    apply settle_waiting.
Qed.

(** ** Warehouse list: the requests *)

Lemma subscribe_exec {C} (req : HttpRequest) (w : World C) :
  exec (subscribe req) w =
  {| component := component w;
     browser := {| localStorage := localStorage (browser w);
                   effects := effects (browser w) ++ [HttpSend req];
                   inflight := S (inflight (browser w)) |} |}.
Proof. now run_state. Qed.

(** C1, as stated, fails: with an access token in local storage, the
    request that [getAll] sends has no [Authorization] header. *)
Lemma getAll_carries_no_bearer :
  ~ forall (API_URL : string) (page size : option Z) (w : World WarehouseComponent.t)
           (token : string),
      localStorage (browser w) !! "access_token" = Some token ->
      exists req : HttpRequest,
        effects (browser (exec (subscribe (WarehouseService.getAll API_URL page size)) w)) =
          effects (browser w) ++ [HttpSend req] /\
        In ("Authorization", "Bearer " +:+ token) (req_headers req).
Proof.
  intros H.
  destruct (H localApi None None
              {| component := WarehouseComponent.init; browser := signedInBrowser |}
              "eyJhbGciOiJIUzI1NiJ9.a" eq_refl) as (req & Hsent & Hhdr).
  rewrite subscribe_exec in Hsent. cbn in Hsent.
  injection Hsent as <-. exact Hhdr.
Qed.

(** C1, amended: no interceptor is registered, so the warehouse list
    request leaves as [getAll] builds it, whether or not a token is
    stored: a GET of the warehouse URL with the query parameters [page]
    and [size] and with no header at all; local storage is only kept. *)
Theorem getAll_request_as_built
    (API_URL : string) (page size : option Z) (w : World WarehouseComponent.t) :
  effects (browser (exec (subscribe (WarehouseService.getAll API_URL page size)) w)) =
    effects (browser w) ++
    [HttpSend {| req_method := GET;
                 req_url := API_URL +:+ "warehouse";
                 req_params := [("page", pretty (default 0%Z page));
                                ("size", pretty (default 10%Z size))];
                 req_headers := [];
                 req_body := None |}] /\
  localStorage (browser (exec (subscribe (WarehouseService.getAll API_URL page size)) w)) =
    localStorage (browser w).
Proof. rewrite subscribe_exec. split; reflexivity. Qed.

Lemma loadWarehouses_exec (API_URL : string) (w : World WarehouseComponent.t) :
  exec (WarehouseComponent.loadWarehouses API_URL) w =
  {| component := WarehouseComponent.set_loading true (component w);
     browser :=
       {| localStorage := localStorage (browser w);
          effects := effects (browser w) ++
            [HttpSend (WarehouseService.getAll API_URL
                         (Some (WarehouseComponent.currentPage (component w)))
                         (Some (WarehouseComponent.pageSize (component w))))];
          inflight := S (inflight (browser w)) |} |}.
Proof.
  destruct w as [c b]. unfold WarehouseComponent.loadWarehouses. now run_state.
Qed.

(** A warehouse list request answered with an error, step by step. *)
Lemma loadWarehouses_then_error (API_URL : string) (w : World WarehouseComponent.t)
    (e : HttpErrorResponse) :
  exec (WarehouseComponent.loadWarehouses API_URL;;
        WarehouseComponent.deliver (Error e)) w =
  {| component :=
       WarehouseComponent.set_loading false
         (WarehouseComponent.set_loading true (component w));
     browser :=
       {| localStorage := localStorage (browser w);
          effects := effects (browser w) ++
            [HttpSend (WarehouseService.getAll API_URL
                         (Some (WarehouseComponent.currentPage (component w)))
                         (Some (WarehouseComponent.pageSize (component w))));
             ConsoleError "Error fetching warehouses:" e];
          inflight := inflight (browser w) |} |}.
Proof.
  rewrite exec_bind, loadWarehouses_exec.
  unfold WarehouseComponent.deliver. rewrite settle_waiting.
  unfold WarehouseComponent.loadWarehouses_error. run_state.
  now rewrite <- app_assoc.
Qed.

(** C7, as stated, fails: the claim describes a refresh-and-retry policy,
    under which an authorization failure is answered by one refresh
    attempt or else by the transition of the session to unauthenticated.
    The code does neither: with tokens stored, after a 401 on the
    warehouse list request no refresh call has been sent and the access
    token is still stored. *)
Lemma authorization_failure_starts_no_cycle :
  ~ forall (API_URL : string) (w : World WarehouseComponent.t) (e : HttpErrorResponse),
      error_status e = 401%Z ->
      exists sent : list HttpRequest,
        network (browser (exec (WarehouseComponent.loadWarehouses API_URL;;
                                WarehouseComponent.deliver (Error e)) w)) =
          network (browser w) ++ sent /\
        (refresh_attempts sent = 1%nat \/
         localStorage (browser (exec (WarehouseComponent.loadWarehouses API_URL;;
                                      WarehouseComponent.deliver (Error e)) w))
           !! "access_token" = None).
Proof.
  intros H.
  destruct (H localApi
              {| component := WarehouseComponent.init; browser := signedInBrowser |}
              unauthorized eq_refl) as (sent & Hsent & Hcycle).
  rewrite loadWarehouses_then_error in Hsent, Hcycle.
  cbn in Hsent. subst sent.
  destruct Hcycle as [Hrefresh | Hcleared]; [discriminate Hrefresh |].
  cbn [browser localStorage signedInBrowser] in Hcleared.
  rewrite lookup_singleton_eq in Hcleared. discriminate Hcleared.
Qed.

(** C7, amended: a warehouse list request that receives an authorization
    failure, or any other error reply, goes through no refresh-and-retry
    cycle at all: the requests sent for it are the one original request,
    so no refresh is attempted and the request is not sent again; the
    session is not touched, local storage with its tokens is what it was;
    and the subscriber's error callback receives the original failure
    itself. *)
Theorem authorization_failure_no_refresh_no_retry
    (API_URL : string) (w : World WarehouseComponent.t) (e : HttpErrorResponse) :
  exists sent : list HttpRequest,
    network (browser (exec (WarehouseComponent.loadWarehouses API_URL;;
                            WarehouseComponent.deliver (Error e)) w)) =
      network (browser w) ++ sent /\
    sent = [WarehouseService.getAll API_URL
              (Some (WarehouseComponent.currentPage (component w)))
              (Some (WarehouseComponent.pageSize (component w)))] /\
    refresh_attempts sent = 0%nat /\
    retries sent = 0%nat /\
    effects (browser (exec (WarehouseComponent.loadWarehouses API_URL;;
                            WarehouseComponent.deliver (Error e)) w)) =
      effects (browser w) ++
      [HttpSend (WarehouseService.getAll API_URL
                   (Some (WarehouseComponent.currentPage (component w)))
                   (Some (WarehouseComponent.pageSize (component w))));
       ConsoleError "Error fetching warehouses:" e] /\
    localStorage (browser (exec (WarehouseComponent.loadWarehouses API_URL;;
                                 WarehouseComponent.deliver (Error e)) w)) =
      localStorage (browser w) /\
    inflight (browser (exec (WarehouseComponent.loadWarehouses API_URL;;
                             WarehouseComponent.deliver (Error e)) w)) =
      inflight (browser w).
Proof.
  rewrite loadWarehouses_then_error.
  exists [WarehouseService.getAll API_URL
            (Some (WarehouseComponent.currentPage (component w)))
            (Some (WarehouseComponent.pageSize (component w)))].
  split.
  - unfold network. cbn [browser effects]. now rewrite omap_app.
  - cbn [browser effects localStorage inflight]. repeat split.
Qed.

(** ** Warehouse list: pagination *)

Local Open Scope Z_scope.

Lemma nextPage_exec (API_URL : string) (w : World WarehouseComponent.t) :
  exec (WarehouseComponent.nextPage API_URL) w =
  if WarehouseComponent.currentPage (component w) <?
     WarehouseComponent.totalPages (component w) - 1
  then exec (WarehouseComponent.loadWarehouses API_URL)
         {| component :=
              WarehouseComponent.set_currentPage
                (WarehouseComponent.currentPage (component w) + 1) (component w);
            browser := browser w |}
  else w.
Proof.
  destruct w as [c b]. unfold WarehouseComponent.nextPage.
  unfold exec at 1, mbind, State_bind, get. cbn [component browser].
  destruct (_ <? _); [| reflexivity].
  unfold update, modify, exec. cbn [snd]. reflexivity.
Qed.

Lemma previousPage_exec (API_URL : string) (w : World WarehouseComponent.t) :
  exec (WarehouseComponent.previousPage API_URL) w =
  if 0 <? WarehouseComponent.currentPage (component w)
  then exec (WarehouseComponent.loadWarehouses API_URL)
         {| component :=
              WarehouseComponent.set_currentPage
                (WarehouseComponent.currentPage (component w) - 1) (component w);
            browser := browser w |}
  else w.
Proof.
  destruct w as [c b]. unfold WarehouseComponent.previousPage.
  unfold exec at 1, mbind, State_bind, get. cbn [component browser].
  destruct (_ <? _); [| reflexivity].
  unfold update, modify, exec. cbn [snd]. reflexivity.
Qed.

(** The page fields after the arrival of a reply. *)
Lemma deliver_pages (reply : HttpResult ApiResponse) (w : World WarehouseComponent.t) :
  WarehouseComponent.currentPage (component (exec (WarehouseComponent.deliver reply) w)) =
    WarehouseComponent.currentPage (component w) /\
  (WarehouseComponent.totalPages (component (exec (WarehouseComponent.deliver reply) w)) =
     WarehouseComponent.totalPages (component w) \/
   Some (WarehouseComponent.totalPages
           (component (exec (WarehouseComponent.deliver reply) w))) =
     reported_total (WarehouseComponent.Reply reply)).
Proof.
  destruct w as [c [ls es [|n]]]; unfold WarehouseComponent.deliver.
  - run_state. now split; [| left].
  - rewrite settle_waiting. destruct reply as [r | e].
    + unfold WarehouseComponent.loadWarehouses_next, reported_total.
      destruct (success r), (data r) as [d|]; run_state;
        cbn [WarehouseComponent.set_loading WarehouseComponent.set_page
             WarehouseComponent.currentPage WarehouseComponent.totalPages];
        (split; [reflexivity | (now left) || (now right)]).
    + unfold WarehouseComponent.loadWarehouses_error. run_state. now split; [| left].
Qed.

Lemma step_within (API_URL : string) (e : WarehouseComponent.Event)
    (w : World WarehouseComponent.t) :
  match reported_total e with
  | Some n => WarehouseComponent.totalPages (component w) <= n
  | None => True
  end ->
  within (component w) ->
  within (component (exec (WarehouseComponent.step API_URL e) w)).
Proof.
  unfold within. intros Hrep [Hlo Hhi]. destruct e as [| | reply]; cbn [WarehouseComponent.step].
  - rewrite nextPage_exec.
    destruct (Z.ltb_spec (WarehouseComponent.currentPage (component w))
                (WarehouseComponent.totalPages (component w) - 1)) as [Hlt | Hge].
    + rewrite loadWarehouses_exec.
      cbn [component WarehouseComponent.set_loading WarehouseComponent.set_currentPage
           WarehouseComponent.currentPage WarehouseComponent.totalPages].
      lia.
    + now split.
  - rewrite previousPage_exec.
    destruct (Z.ltb_spec 0 (WarehouseComponent.currentPage (component w))) as [Hlt | Hge].
    + rewrite loadWarehouses_exec.
      cbn [component WarehouseComponent.set_loading WarehouseComponent.set_currentPage
           WarehouseComponent.currentPage WarehouseComponent.totalPages].
      lia.
    + now split.
  - destruct (deliver_pages reply w) as [Hcp [Htp | Htp]]; rewrite Hcp.
    + rewrite Htp. now split.
    + rewrite <- Htp in Hrep. lia.
Qed.

Lemma run_within (API_URL : string) (evs : list WarehouseComponent.Event) :
  forall w : World WarehouseComponent.t,
    never_shrinks API_URL evs w ->
    within (component w) ->
    within (component (WarehouseComponent.run API_URL evs w)).
Proof.
  induction evs as [| e evs IH]; intros w Hns Hw; cbn [WarehouseComponent.run foldl].
  - exact Hw.
  - destruct Hns as [Hrep Hns]. apply IH; [exact Hns |].
    now apply step_within.
Qed.

Lemma openPage_within (API_URL : string) (b : Browser) :
  within (component (openPage API_URL b)).
Proof.
  unfold openPage, WarehouseComponent.ngOnInit. rewrite loadWarehouses_exec.
  unfold within. cbn. lia.
Qed.

(** C9, as stated, fails: a reply overwrites [totalPages], and when the
    backend reports fewer pages than before, the page index stays where it
    was.  On the third of three pages, a reply that reports one page
    leaves the index past the last page, also after [previousPage]. *)
Lemma page_index_passes_last_page :
  1 <= WarehouseComponent.totalPages
         (component
            (WarehouseComponent.run localApi
               [WarehouseComponent.Reply (pageOf [mainWarehouse] 3);
                WarehouseComponent.CallNextPage;
                WarehouseComponent.Reply (pageOf [transitWarehouse] 3);
                WarehouseComponent.CallNextPage;
                WarehouseComponent.Reply (pageOf [] 1);
                WarehouseComponent.CallPreviousPage]
               (openPage localApi emptyBrowser))) /\
  ~ WarehouseComponent.currentPage
      (component
         (WarehouseComponent.run localApi
            [WarehouseComponent.Reply (pageOf [mainWarehouse] 3);
             WarehouseComponent.CallNextPage;
             WarehouseComponent.Reply (pageOf [transitWarehouse] 3);
             WarehouseComponent.CallNextPage;
             WarehouseComponent.Reply (pageOf [] 1);
             WarehouseComponent.CallPreviousPage]
            (openPage localApi emptyBrowser)))
    <= WarehouseComponent.totalPages
         (component
            (WarehouseComponent.run localApi
               [WarehouseComponent.Reply (pageOf [mainWarehouse] 3);
                WarehouseComponent.CallNextPage;
                WarehouseComponent.Reply (pageOf [transitWarehouse] 3);
                WarehouseComponent.CallNextPage;
                WarehouseComponent.Reply (pageOf [] 1);
                WarehouseComponent.CallPreviousPage]
               (openPage localApi emptyBrowser))) - 1.
Proof. vm_compute. split; [intros H; discriminate H | intros H; apply H; reflexivity]. Qed.

Lemma step_nonneg (API_URL : string) (e : WarehouseComponent.Event)
    (w : World WarehouseComponent.t) :
  0 <= WarehouseComponent.currentPage (component w) ->
  0 <= WarehouseComponent.currentPage
         (component (exec (WarehouseComponent.step API_URL e) w)).
Proof.
  intros Hlo. destruct e as [| | reply]; cbn [WarehouseComponent.step].
  - rewrite nextPage_exec. destruct (_ <? _); [| exact Hlo].
    rewrite loadWarehouses_exec.
    cbn [component WarehouseComponent.set_loading WarehouseComponent.set_currentPage
         WarehouseComponent.currentPage].
    lia.
  - rewrite previousPage_exec.
    destruct (Z.ltb_spec 0 (WarehouseComponent.currentPage (component w))); [| exact Hlo].
    rewrite loadWarehouses_exec.
    cbn [component WarehouseComponent.set_loading WarehouseComponent.set_currentPage
         WarehouseComponent.currentPage].
    lia.
  - destruct (deliver_pages reply w) as [Hcp _]. now rewrite Hcp.
Qed.

Lemma run_nonneg (API_URL : string) (evs : list WarehouseComponent.Event) :
  forall w : World WarehouseComponent.t,
    0 <= WarehouseComponent.currentPage (component w) ->
    0 <= WarehouseComponent.currentPage
           (component (WarehouseComponent.run API_URL evs w)).
Proof.
  induction evs as [| e evs IH]; intros w Hw; cbn [WarehouseComponent.run foldl].
  - exact Hw.
  - apply IH. now apply step_nonneg.
Qed.

(** C9, amended: from the opened page, after every sequence of
    [nextPage] and [previousPage] calls and of replies, the page index is
    at least 0; and while no reply lowers [totalPages], it is at most
    [totalPages - 1] whenever [totalPages] is at least 1.  [nextPage] does
    nothing on or past the last page, [previousPage] nothing on the
    first. *)
Theorem page_index_in_bounds
    (API_URL : string) (b : Browser) (evs : list WarehouseComponent.Event) :
  0 <= WarehouseComponent.currentPage
         (component (WarehouseComponent.run API_URL evs (openPage API_URL b))) /\
  (never_shrinks API_URL evs (openPage API_URL b) ->
   1 <= WarehouseComponent.totalPages
          (component (WarehouseComponent.run API_URL evs (openPage API_URL b))) ->
   WarehouseComponent.currentPage
     (component (WarehouseComponent.run API_URL evs (openPage API_URL b)))
   <= WarehouseComponent.totalPages
        (component (WarehouseComponent.run API_URL evs (openPage API_URL b))) - 1) /\
  (forall w : World WarehouseComponent.t,
     WarehouseComponent.totalPages (component w) - 1 <=
       WarehouseComponent.currentPage (component w) ->
     exec (WarehouseComponent.nextPage API_URL) w = w) /\
  (forall w : World WarehouseComponent.t,
     WarehouseComponent.currentPage (component w) <= 0 ->
     exec (WarehouseComponent.previousPage API_URL) w = w).
Proof.
  split; [| split; [| split]].
  - apply run_nonneg. apply (openPage_within API_URL b).
  - intros Hns Htp.
    destruct (run_within API_URL evs _ Hns (openPage_within API_URL b)) as [_ Hhi].
    lia.
  - intros w Hlast. rewrite nextPage_exec.
    destruct (Z.ltb_spec (WarehouseComponent.currentPage (component w))
                (WarehouseComponent.totalPages (component w) - 1)); [lia | reflexivity].
  - intros w Hfirst. rewrite previousPage_exec.
    destruct (Z.ltb_spec 0 (WarehouseComponent.currentPage (component w)));
      [lia | reflexivity].
Qed.

Lemma page_index_in_bounds_witness :
  WarehouseComponent.currentPage
    (component
       (WarehouseComponent.run localApi
          [WarehouseComponent.Reply (pageOf [mainWarehouse] 3);
           WarehouseComponent.CallNextPage;
           WarehouseComponent.Reply (pageOf [transitWarehouse] 3);
           WarehouseComponent.CallNextPage;
           WarehouseComponent.CallNextPage;
           WarehouseComponent.Reply (pageOf [] 4);
           WarehouseComponent.CallPreviousPage]
          (openPage localApi emptyBrowser)))
  <= WarehouseComponent.totalPages
       (component
          (WarehouseComponent.run localApi
             [WarehouseComponent.Reply (pageOf [mainWarehouse] 3);
              WarehouseComponent.CallNextPage;
              WarehouseComponent.Reply (pageOf [transitWarehouse] 3);
              WarehouseComponent.CallNextPage;
              WarehouseComponent.CallNextPage;
              WarehouseComponent.Reply (pageOf [] 4);
              WarehouseComponent.CallPreviousPage]
             (openPage localApi emptyBrowser))) - 1.
Proof.
  apply (page_index_in_bounds localApi emptyBrowser
           [WarehouseComponent.Reply (pageOf [mainWarehouse] 3);
            WarehouseComponent.CallNextPage;
            WarehouseComponent.Reply (pageOf [transitWarehouse] 3);
            WarehouseComponent.CallNextPage;
            WarehouseComponent.CallNextPage;
            WarehouseComponent.Reply (pageOf [] 4);
            WarehouseComponent.CallPreviousPage]).
  - vm_compute. repeat split; intros H; discriminate H.
  - vm_compute. intros H; discriminate H.
Defined.

(** ** Warehouse list: the filter *)

Lemma filter_sublist {A} (f : A -> bool) (l : list A) : sublist (List.filter f l) l.
Proof.
  induction l as [| x l IH]; cbn [List.filter].
  - constructor.
  - destruct (f x); now constructor.
Qed.

Lemma filter_all {A} (f : A -> bool) (l : list A) :
  (forall x, f x = true) -> List.filter f l = l.
Proof.
  intros Hall. induction l as [| x l IH]; cbn [List.filter]; [reflexivity |].
  now rewrite Hall, IH.
Qed.

(** C10: [getFilteredWarehouses] returns a sub-list of the loaded list
    (its elements are elements of [wareHouses], in the same relative
    order), it changes neither [wareHouses] nor anything else, and when
    [searchTerm], [selectedStatus] and [selectedType] are all empty it
    returns the whole loaded list. *)
Theorem getFilteredWarehouses_sublist
    (toLowerCase : string -> string) (w : World WarehouseComponent.t) :
  sublist (eval (WarehouseComponent.getFilteredWarehouses toLowerCase) w)
          (WarehouseComponent.wareHouses (component w)) /\
  exec (WarehouseComponent.getFilteredWarehouses toLowerCase) w = w /\
  (WarehouseComponent.searchTerm (component w) = "" ->
   WarehouseComponent.selectedStatus (component w) = "" ->
   WarehouseComponent.selectedType (component w) = "" ->
   eval (WarehouseComponent.getFilteredWarehouses toLowerCase) w =
   WarehouseComponent.wareHouses (component w)).
Proof.
  unfold WarehouseComponent.getFilteredWarehouses. run_state.
  split; [apply filter_sublist | split; [reflexivity |]].
  intros Hs Hst Hty. apply filter_all. intros x.
  unfold WarehouseComponent.matchesFilters. now rewrite Hs, Hst, Hty.
Qed.

Lemma getFilteredWarehouses_sublist_witness :
  eval (WarehouseComponent.getFilteredWarehouses asciiLower)
    (exec (WarehouseComponent.deliver
             (pageOf [mainWarehouse; transitWarehouse] 1))
       (openPage localApi emptyBrowser)) =
  [mainWarehouse; transitWarehouse].
Proof.
  apply (getFilteredWarehouses_sublist asciiLower
           (exec (WarehouseComponent.deliver
                    (pageOf [mainWarehouse; transitWarehouse] 1))
              (openPage localApi emptyBrowser)));
    reflexivity.
Defined.

(** ** Logout *)

(** C8: [logout()] is idempotent: the token store and the session state
    after two calls in a row are those after one call; and after
    [logout()] the token store's [load()] returns null and the session
    state has [isAuthenticated = false]. *)
Theorem logout_idempotent (p : Session.Publisher) :
  Session.tokenStore (Session.logout (Session.logout p)) =
    Session.tokenStore (Session.logout p) /\
  Session.current (Session.logout (Session.logout p)) =
    Session.current (Session.logout p) /\
  Session.load (Session.logout p) = None /\
  Session.isAuthenticated (Session.current (Session.logout p)) = false.
Proof. repeat split. Qed.

(** * Further properties of the login component *)

(** X1: the login form is valid exactly when the username is not empty
    and the password has at least 6 characters, counted in UTF-16 code
    units as [.length] counts them: three characters of two bytes each
    are too short, three characters beyond the basic plane are long
    enough.  [minLength(6)] alone lets the empty password through,
    [required] rejects it. *)
Theorem loginForm_valid_iff (f : LoginComponent.FormGroup) :
  (LoginComponent.invalid f = false <->
   username (LoginComponent.value f) <> "" /\
   (6 <= js_length (password (LoginComponent.value f)))%nat) /\
  LoginComponent.minLength 6 "" = true /\
  LoginComponent.required "" = false /\
  LoginComponent.minLength 6 "đđđ" = false /\
  LoginComponent.minLength 6 "😀😀😀" = true.
Proof.
  split; [| repeat split].
  pose proof (invalid_iff f) as Hiff.
  destruct (LoginComponent.invalid f) eqn:E; split.
  - discriminate.
  - intros [Hu Hp]. destruct (proj1 Hiff eq_refl) as [H | H]; [contradiction | lia].
  - intros _. split.
    + intros Hu. assert (true = false) by (symmetry; apply Hiff; now left). discriminate.
    + destruct (Nat.le_gt_cases 6 (js_length (password (LoginComponent.value f))))
        as [Hle | Hlt]; [exact Hle |].
      assert (false = true) by (apply Hiff; now right). discriminate.
  - reflexivity.
Qed.

Lemma valid_of_credentials (f : LoginComponent.FormGroup) :
  username (LoginComponent.value f) <> "" ->
  (6 <= js_length (password (LoginComponent.value f)))%nat ->
  LoginComponent.invalid f = false.
Proof.
  intros Hu Hp. pose proof (invalid_iff f) as Hiff.
  destruct (LoginComponent.invalid f); [| reflexivity].
  destruct (proj1 Hiff eq_refl) as [H | H]; [contradiction | lia].
Qed.

(** X2: with a non-empty username and a password of at least 6
    characters (UTF-16 code units, as [.length] counts them), [onSubmit]
    sends exactly one request, the login POST whose body is the form's
    value, and awaits its reply; it raises the loading flag, clears the
    error message, shows no toast and writes nothing to local storage. *)
Theorem onSubmit_wellformed_sends_one_request (w : World LoginComponent.t) :
  username (LoginComponent.value (LoginComponent.loginForm (component w))) <> "" ->
  (6 <= js_length
          (password (LoginComponent.value (LoginComponent.loginForm (component w)))))%nat ->
  effects (browser (exec LoginComponent.onSubmit w)) =
    effects (browser w) ++
    [HttpSend {| req_method := POST;
                 req_url := "http://localhost:8080/api/v1/auth/login";
                 req_params := [];
                 req_headers := [];
                 req_body :=
                   Some (LoginComponent.value (LoginComponent.loginForm (component w))) |}] /\
  inflight (browser (exec LoginComponent.onSubmit w)) = S (inflight (browser w)) /\
  localStorage (browser (exec LoginComponent.onSubmit w)) = localStorage (browser w) /\
  LoginComponent.isLoading (component (exec LoginComponent.onSubmit w)) = true /\
  LoginComponent.errorMessage (component (exec LoginComponent.onSubmit w)) = "" /\
  LoginComponent.submitted (component (exec LoginComponent.onSubmit w)) = true /\
  LoginComponent.loginForm (component (exec LoginComponent.onSubmit w)) =
    LoginComponent.loginForm (component w).
Proof.
  intros Hu Hp. rewrite (onSubmit_valid w (valid_of_credentials _ Hu Hp)).
  repeat split.
Qed.

Lemma onSubmit_wellformed_sends_one_request_witness :
  effects (browser (exec LoginComponent.onSubmit (loginWorld "alice" "secret1"))) =
    effects (browser (loginWorld "alice" "secret1")) ++
    [HttpSend {| req_method := POST;
                 req_url := "http://localhost:8080/api/v1/auth/login";
                 req_params := [];
                 req_headers := [];
                 req_body := Some {| username := "alice"; password := "secret1" |} |}].
Proof.
  apply (onSubmit_wellformed_sends_one_request (loginWorld "alice" "secret1")).
  - discriminate.
  - vm_compute. lia.
Defined.

(** X3: [onSubmit] does not look at [isLoading] or at the requests in
    flight: submitting a valid form twice in a row sends the login request
    twice and awaits two replies. *)
Theorem onSubmit_twice_sends_twice (w : World LoginComponent.t) :
  LoginComponent.invalid (LoginComponent.loginForm (component w)) = false ->
  effects (browser (exec (LoginComponent.onSubmit;; LoginComponent.onSubmit) w)) =
    effects (browser w) ++
    [HttpSend (AuthServiceService.login
                 (LoginComponent.value (LoginComponent.loginForm (component w))));
     HttpSend (AuthServiceService.login
                 (LoginComponent.value (LoginComponent.loginForm (component w))))] /\
  inflight (browser (exec (LoginComponent.onSubmit;; LoginComponent.onSubmit) w)) =
    S (S (inflight (browser w))).
Proof.
  intros Hv. rewrite exec_bind, (onSubmit_valid w Hv).
  rewrite onSubmit_valid by exact Hv.
  cbn [browser component effects inflight LoginComponent.loginForm
       LoginComponent.set_errorMessage LoginComponent.set_isLoading
       LoginComponent.set_submitted].
  now rewrite <- app_assoc.
Qed.

Lemma onSubmit_twice_sends_twice_witness :
  effects (browser (exec (LoginComponent.onSubmit;; LoginComponent.onSubmit)
                      (loginWorld "alice" "secret1"))) =
    effects (browser (loginWorld "alice" "secret1")) ++
    [HttpSend (AuthServiceService.login {| username := "alice"; password := "secret1" |});
     HttpSend (AuthServiceService.login {| username := "alice"; password := "secret1" |})] /\
  inflight (browser (exec (LoginComponent.onSubmit;; LoginComponent.onSubmit)
                       (loginWorld "alice" "secret1"))) = 2%nat.
Proof.
  apply (onSubmit_twice_sends_twice (loginWorld "alice" "secret1")).
  reflexivity.
Defined.

Lemma last_snoc3 {A} (l : list A) (a b c d : A) : List.last (l ++ [a; b; c]) d = c.
Proof. change [a; b; c] with ([a; b] ++ [c]). rewrite app_assoc. apply last_last. Qed.

(** X4: when a login call fails, the toast shows the backend's message if
    the error body has a non-empty one, and the fixed text when the
    message is missing or empty; the [errorMessage] field gets the fixed
    text in every case, never the backend's message. *)
Theorem login_error_message_fallback (w : World LoginComponent.t) (e : HttpErrorResponse) :
  LoginComponent.invalid (LoginComponent.loginForm (component w)) = false ->
  LoginComponent.errorMessage (component (exec (LoginComponent.loginCall (Error e)) w)) =
    "Tên đăng nhập hoặc mật khẩu không đúng" /\
  (forall m : string,
     error_message e = Some m -> m <> "" ->
     List.last (effects (browser (exec (LoginComponent.loginCall (Error e)) w)))
               (Navigate []) =
     Toast ToastError m "Đăng nhập thất bại") /\
  (error_message e = None \/ error_message e = Some "" ->
   List.last (effects (browser (exec (LoginComponent.loginCall (Error e)) w)))
             (Navigate []) =
   Toast ToastError "Tên đăng nhập hoặc mật khẩu không đúng" "Đăng nhập thất bại").
Proof.
  intros Hv. rewrite (loginCall_error w e Hv).
  cbn [browser component effects LoginComponent.errorMessage
       LoginComponent.set_isLoading LoginComponent.set_errorMessage].
  split; [reflexivity |].
  rewrite !last_snoc3.
  split.
  - intros m Hm Hne. rewrite Hm. cbn [or_else].
    destruct m as [| a m]; [contradiction | reflexivity].
  - intros [Hm | Hm]; now rewrite Hm.
Qed.

Lemma login_error_message_fallback_witness :
  List.last (effects (browser (exec (LoginComponent.loginCall
                                       (Error {| error_status := 500;
                                                 error_message := None |}))
                                 (loginWorld "alice" "secret1"))))
            (Navigate []) =
  Toast ToastError "Tên đăng nhập hoặc mật khẩu không đúng" "Đăng nhập thất bại".
Proof.
  apply (login_error_message_fallback (loginWorld "alice" "secret1")
           {| error_status := 500; error_message := None |}).
  - reflexivity.
  - left. reflexivity.
Defined.

Lemma loginCall_keeps_form (w : World LoginComponent.t) (reply : HttpResult AuthResponse) :
  LoginComponent.invalid (LoginComponent.loginForm (component w)) = false ->
  LoginComponent.loginForm (component (exec (LoginComponent.loginCall reply) w)) =
  LoginComponent.loginForm (component w).
Proof.
  intros Hv. destruct reply as [r | e].
  - now rewrite (loginCall_next w r Hv).
  - now rewrite (loginCall_error w e Hv).
Qed.

Lemma store_twice (m : gmap string string) (a1 r1 a2 r2 : string) :
  <["refresh_token" := r2]>
    (<["access_token" := a2]>
       (<["refresh_token" := r1]> (<["access_token" := a1]> m))) =
  <["refresh_token" := r2]> (<["access_token" := a2]> m).
Proof.
  apply map_eq. intros k. rewrite !lookup_insert.
  repeat case_decide; reflexivity.
Qed.

(** X5: the last successful login wins: after two successful login calls
    local storage is what the second call alone would have left; the
    tokens of the first call are overwritten, not accumulated. *)
Theorem second_login_overwrites_tokens
    (w : World LoginComponent.t) (r1 r2 : AuthResponse) :
  LoginComponent.invalid (LoginComponent.loginForm (component w)) = false ->
  localStorage (browser (exec (LoginComponent.loginCall (Next r1);;
                               LoginComponent.loginCall (Next r2)) w)) =
    localStorage (browser (exec (LoginComponent.loginCall (Next r2)) w)) /\
  localStorage (browser (exec (LoginComponent.loginCall (Next r1);;
                               LoginComponent.loginCall (Next r2)) w)) !! "access_token" =
    Some (access_token r2) /\
  localStorage (browser (exec (LoginComponent.loginCall (Next r1);;
                               LoginComponent.loginCall (Next r2)) w)) !! "refresh_token" =
    Some (refresh_token r2).
Proof.
  intros Hv. rewrite exec_bind.
  assert (Hv1 : LoginComponent.invalid
                  (LoginComponent.loginForm
                     (component (exec (LoginComponent.loginCall (Next r1)) w))) = false)
    by now rewrite loginCall_keeps_form.
  rewrite (loginCall_next _ r2 Hv1), (loginCall_next w r2 Hv), (loginCall_next w r1 Hv).
  cbn [browser localStorage]. split; [apply store_twice | split].
  - rewrite lookup_insert_ne by discriminate. apply lookup_insert_eq.
  - apply lookup_insert_eq.
Qed.

Lemma second_login_overwrites_tokens_witness :
  localStorage (browser (exec (LoginComponent.loginCall (Next sampleTokens);;
                               LoginComponent.loginCall
                                 (Next {| access_token := "a2"; refresh_token := "r2";
                                          expire_access_token := ""; expire_refresh_token := "";
                                          ip := "" |}))
                           (loginWorld "alice" "secret1"))) !! "access_token" =
  Some "a2".
Proof.
  apply (second_login_overwrites_tokens (loginWorld "alice" "secret1") sampleTokens
           {| access_token := "a2"; refresh_token := "r2";
              expire_access_token := ""; expire_refresh_token := ""; ip := "" |}).
  reflexivity.
Defined.

(** X6: a failed login call leaves nothing behind that a later call could
    see: after a failure followed by a success, the component (error
    message cleared, loading flag down) and local storage are what the
    successful call alone would have produced. *)
Theorem login_retry_after_failure
    (w : World LoginComponent.t) (e : HttpErrorResponse) (r : AuthResponse) :
  LoginComponent.invalid (LoginComponent.loginForm (component w)) = false ->
  component (exec (LoginComponent.loginCall (Error e);;
                   LoginComponent.loginCall (Next r)) w) =
    component (exec (LoginComponent.loginCall (Next r)) w) /\
  localStorage (browser (exec (LoginComponent.loginCall (Error e);;
                               LoginComponent.loginCall (Next r)) w)) =
    localStorage (browser (exec (LoginComponent.loginCall (Next r)) w)) /\
  LoginComponent.errorMessage
    (component (exec (LoginComponent.loginCall (Error e);;
                      LoginComponent.loginCall (Next r)) w)) = "".
Proof.
  intros Hv. rewrite exec_bind.
  assert (Hv1 : LoginComponent.invalid
                  (LoginComponent.loginForm
                     (component (exec (LoginComponent.loginCall (Error e)) w))) = false)
    by now rewrite loginCall_keeps_form.
  rewrite (loginCall_next _ r Hv1), (loginCall_next w r Hv), (loginCall_error w e Hv).
  repeat split.
Qed.

Lemma login_retry_after_failure_witness :
  LoginComponent.errorMessage
    (component (exec (LoginComponent.loginCall (Error invalidCredentials);;
                      LoginComponent.loginCall (Next sampleTokens))
                  (loginWorld "alice" "secret1"))) = "".
Proof.
  apply (login_retry_after_failure (loginWorld "alice" "secret1")
           invalidCredentials sampleTokens).
  reflexivity.
Defined.

(** X7: [togglePassword] only flips [hidePassword]: it has no effect on
    the browser or on the other fields, and toggling twice restores the
    component. *)
Theorem togglePassword_involution (w : World LoginComponent.t) :
  exec (LoginComponent.togglePassword;; LoginComponent.togglePassword) w = w /\
  browser (exec LoginComponent.togglePassword w) = browser w /\
  LoginComponent.hidePassword (component (exec LoginComponent.togglePassword w)) =
    negb (LoginComponent.hidePassword (component w)) /\
  LoginComponent.loginForm (component (exec LoginComponent.togglePassword w)) =
    LoginComponent.loginForm (component w) /\
  LoginComponent.isLoading (component (exec LoginComponent.togglePassword w)) =
    LoginComponent.isLoading (component w) /\
  LoginComponent.errorMessage (component (exec LoginComponent.togglePassword w)) =
    LoginComponent.errorMessage (component w) /\
  LoginComponent.submitted (component (exec LoginComponent.togglePassword w)) =
    LoginComponent.submitted (component w).
Proof.
  destruct w as [[f l m h s] b]. unfold LoginComponent.togglePassword. run_state.
  cbn [LoginComponent.set_hidePassword LoginComponent.hidePassword
       LoginComponent.loginForm LoginComponent.isLoading LoginComponent.errorMessage
       LoginComponent.submitted].
  rewrite negb_involutive. repeat split.
Qed.

(** * Further properties of the warehouse service and page *)

(** X8: the request built by [getAll] determines the page and the size:
    two calls build the same request only for the same page and size, so
    distinct pages are distinct requests.  Left-out arguments stand for
    page 0 and size 10.  Every request is a GET of the same URL without
    headers or body. *)
Theorem getAll_determines_page_and_size (API_URL : string) (p1 s1 p2 s2 : Z) :
  (WarehouseService.getAll API_URL (Some p1) (Some s1) =
   WarehouseService.getAll API_URL (Some p2) (Some s2) <-> p1 = p2 /\ s1 = s2) /\
  WarehouseService.getAll API_URL None None =
    WarehouseService.getAll API_URL (Some 0) (Some 10) /\
  WarehouseService.getAll API_URL (Some p1) None =
    WarehouseService.getAll API_URL (Some p1) (Some 10) /\
  req_method (WarehouseService.getAll API_URL (Some p1) (Some s1)) = GET /\
  req_url (WarehouseService.getAll API_URL (Some p1) (Some s1)) =
    req_url (WarehouseService.getAll API_URL (Some p2) (Some s2)).
Proof.
  split; [| repeat split].
  split.
  - unfold WarehouseService.getAll. cbn [default]. intros H.
    injection H as Hp Hs. split; now apply (inj pretty).
  - now intros [-> ->].
Qed.

Lemma deliver_waiting (reply : HttpResult ApiResponse)
    (c : WarehouseComponent.t) (ls : gmap string string) (es : list Effect) (n : nat) :
  exec (WarehouseComponent.deliver reply)
    {| component := c;
       browser := {| localStorage := ls; effects := es; inflight := S n |} |} =
  match reply with
  | Next r =>
      {| component :=
           WarehouseComponent.set_loading false
             match success r, data r with
             | true, Some d => WarehouseComponent.set_page d c
             | _, _ => c
             end;
         browser := {| localStorage := ls; effects := es; inflight := n |} |}
  | Error e =>
      {| component := WarehouseComponent.set_loading false c;
         browser := {| localStorage := ls;
                       effects := es ++ [ConsoleError "Error fetching warehouses:" e];
                       inflight := n |} |}
  end.
Proof.
  unfold WarehouseComponent.deliver. rewrite settle_waiting.
  destruct reply as [r | e].
  - unfold WarehouseComponent.loadWarehouses_next.
    destruct (success r), (data r); now run_state.
  - unfold WarehouseComponent.loadWarehouses_error. now run_state.
Qed.

(** X9: a reply that carries no page (an error, [success = false], or no
    [data]) keeps the list and the counters that are shown: the component
    only lowers [loading].  No toast is shown and nothing navigates; an
    error reply is written to the console, an unsuccessful envelope
    leaves no trace at all. *)
Theorem reply_without_page_keeps_list
    (reply : HttpResult ApiResponse) (w : World WarehouseComponent.t) :
  inflight (browser w) <> 0%nat ->
  carries_no_page reply ->
  component (exec (WarehouseComponent.deliver reply) w) =
    WarehouseComponent.set_loading false (component w) /\
  effects (browser (exec (WarehouseComponent.deliver reply) w)) =
    effects (browser w) ++ logged reply /\
  localStorage (browser (exec (WarehouseComponent.deliver reply) w)) =
    localStorage (browser w) /\
  inflight (browser (exec (WarehouseComponent.deliver reply) w)) =
    Nat.pred (inflight (browser w)).
Proof.
  destruct w as [c [ls es [| n]]]; cbn [browser inflight]; [congruence | intros _ Hno].
  rewrite deliver_waiting. destruct reply as [r | e]; cbn [carries_no_page logged] in *.
  - cbn [component browser effects localStorage inflight Nat.pred].
    rewrite app_nil_r.
    destruct Hno as [-> | ->]; [| destruct (success r)]; repeat split.
  - repeat split.
Qed.

Lemma reply_without_page_keeps_list_witness :
  component (exec (WarehouseComponent.deliver (Next failedEnvelope))
               (warehousePage [mainWarehouse; transitWarehouse] 0 3 1)) =
    WarehouseComponent.set_loading false
      (component (warehousePage [mainWarehouse; transitWarehouse] 0 3 1)) /\
  effects (browser (exec (WarehouseComponent.deliver (Next failedEnvelope))
                      (warehousePage [mainWarehouse; transitWarehouse] 0 3 1))) =
    effects (browser (warehousePage [mainWarehouse; transitWarehouse] 0 3 1)) ++ [] /\
  localStorage (browser (exec (WarehouseComponent.deliver (Next failedEnvelope))
                           (warehousePage [mainWarehouse; transitWarehouse] 0 3 1))) =
    localStorage (browser (warehousePage [mainWarehouse; transitWarehouse] 0 3 1)) /\
  inflight (browser (exec (WarehouseComponent.deliver (Next failedEnvelope))
                       (warehousePage [mainWarehouse; transitWarehouse] 0 3 1))) = 0%nat.
Proof.
  apply (reply_without_page_keeps_list (Next failedEnvelope)
           (warehousePage [mainWarehouse; transitWarehouse] 0 3 1)).
  - discriminate.
  - left. reflexivity.
Defined.

(** X10: the reply that arrives last is the one shown: when two replies
    are outstanding and the second to arrive carries a page, the list and
    the counters are those of that page whatever the first reply was; the
    page index is not taken from a reply. *)
Theorem last_reply_is_shown
    (first : HttpResult ApiResponse) (r : ApiResponse) (d : PageResponse)
    (w : World WarehouseComponent.t) :
  (2 <= inflight (browser w))%nat ->
  success r = true ->
  data r = Some d ->
  WarehouseComponent.wareHouses
    (component (exec (WarehouseComponent.deliver first;;
                      WarehouseComponent.deliver (Next r)) w)) = content d /\
  WarehouseComponent.totalElements
    (component (exec (WarehouseComponent.deliver first;;
                      WarehouseComponent.deliver (Next r)) w)) = total_elements d /\
  WarehouseComponent.totalPages
    (component (exec (WarehouseComponent.deliver first;;
                      WarehouseComponent.deliver (Next r)) w)) = total_pages d /\
  WarehouseComponent.currentPage
    (component (exec (WarehouseComponent.deliver first;;
                      WarehouseComponent.deliver (Next r)) w)) =
    WarehouseComponent.currentPage (component w) /\
  WarehouseComponent.loading
    (component (exec (WarehouseComponent.deliver first;;
                      WarehouseComponent.deliver (Next r)) w)) = false.
Proof.
  destruct w as [c [ls es [| [| n]]]]; cbn [browser inflight]; [lia | lia |].
  intros _ Hs Hd. rewrite exec_bind, deliver_waiting.
  destruct first as [r1 | e1]; rewrite deliver_waiting, Hs, Hd;
    cbn [component WarehouseComponent.set_loading WarehouseComponent.set_page
         WarehouseComponent.wareHouses WarehouseComponent.totalElements
         WarehouseComponent.totalPages WarehouseComponent.currentPage
         WarehouseComponent.loading];
    repeat split; destruct (success r1), (data r1); reflexivity.
Qed.

Lemma last_reply_is_shown_witness :
  WarehouseComponent.wareHouses
    (component (exec (WarehouseComponent.deliver (pageOf [mainWarehouse] 3);;
                      WarehouseComponent.deliver
                        (Next {| success := true; error_code := None; message := None;
                                 data := Some {| content := [transitWarehouse];
                                                 total_elements := 1;
                                                 total_pages := 1 |};
                                 field_errors := []; timestamp := "" |}))
                  (warehousePage [] 1 3 2))) = [transitWarehouse].
Proof.
  apply (last_reply_is_shown (pageOf [mainWarehouse] 3)
           {| success := true; error_code := None; message := None;
              data := Some {| content := [transitWarehouse];
                              total_elements := 1; total_pages := 1 |};
              field_errors := []; timestamp := "" |}
           {| content := [transitWarehouse]; total_elements := 1; total_pages := 1 |}
           (warehousePage [] 1 3 2)).
  - vm_compute. lia.
  - reflexivity.
  - reflexivity.
Defined.

(** X11: [loading] is a single flag, not a count: when two requests are
    outstanding, the first reply to arrive lowers it although a request
    is still in flight. *)
Theorem loading_cleared_by_first_reply
    (API_URL : string) (reply : HttpResult ApiResponse) (w : World WarehouseComponent.t) :
  WarehouseComponent.loading
    (component (exec (WarehouseComponent.loadWarehouses API_URL;;
                      WarehouseComponent.loadWarehouses API_URL;;
                      WarehouseComponent.deliver reply) w)) = false /\
  inflight (browser (exec (WarehouseComponent.loadWarehouses API_URL;;
                           WarehouseComponent.loadWarehouses API_URL;;
                           WarehouseComponent.deliver reply) w)) =
    S (inflight (browser w)) /\
  WarehouseComponent.loading
    (component (exec (WarehouseComponent.loadWarehouses API_URL;;
                      WarehouseComponent.loadWarehouses API_URL) w)) = true.
Proof.
  rewrite !exec_bind, !loadWarehouses_exec.
  cbn [component browser localStorage effects inflight].
  rewrite deliver_waiting.
  destruct reply as [r | e]; [destruct (success r), (data r) |]; repeat split.
Qed.

Lemma nextPage_moves (API_URL : string) (w : World WarehouseComponent.t) :
  WarehouseComponent.currentPage (component w) <
    WarehouseComponent.totalPages (component w) - 1 ->
  exec (WarehouseComponent.nextPage API_URL) w =
  {| component :=
       WarehouseComponent.set_loading true
         (WarehouseComponent.set_currentPage
            (WarehouseComponent.currentPage (component w) + 1) (component w));
     browser :=
       {| localStorage := localStorage (browser w);
          effects := effects (browser w) ++
            [HttpSend (WarehouseService.getAll API_URL
                         (Some (WarehouseComponent.currentPage (component w) + 1))
                         (Some (WarehouseComponent.pageSize (component w))))];
          inflight := S (inflight (browser w)) |} |}.
Proof.
  intros Hlt. rewrite nextPage_exec.
  destruct (Z.ltb_spec (WarehouseComponent.currentPage (component w))
              (WarehouseComponent.totalPages (component w) - 1)); [| lia].
  now rewrite loadWarehouses_exec.
Qed.

Lemma previousPage_moves (API_URL : string) (w : World WarehouseComponent.t) :
  0 < WarehouseComponent.currentPage (component w) ->
  exec (WarehouseComponent.previousPage API_URL) w =
  {| component :=
       WarehouseComponent.set_loading true
         (WarehouseComponent.set_currentPage
            (WarehouseComponent.currentPage (component w) - 1) (component w));
     browser :=
       {| localStorage := localStorage (browser w);
          effects := effects (browser w) ++
            [HttpSend (WarehouseService.getAll API_URL
                         (Some (WarehouseComponent.currentPage (component w) - 1))
                         (Some (WarehouseComponent.pageSize (component w))))];
          inflight := S (inflight (browser w)) |} |}.
Proof.
  intros Hlt. rewrite previousPage_exec.
  destruct (Z.ltb_spec 0 (WarehouseComponent.currentPage (component w))); [| lia].
  now rewrite loadWarehouses_exec.
Qed.

(** X12: [nextPage] followed by [previousPage] comes back to the page it
    started from, provided it started inside the range and before the
    last page; on the way it requests the next page and then the starting
    page again, in this order, and leaves the list and the counters as
    they were. *)
Theorem nextPage_then_previousPage (API_URL : string) (w : World WarehouseComponent.t) :
  0 <= WarehouseComponent.currentPage (component w) ->
  WarehouseComponent.currentPage (component w) <
    WarehouseComponent.totalPages (component w) - 1 ->
  WarehouseComponent.currentPage
    (component (exec (WarehouseComponent.nextPage API_URL;;
                      WarehouseComponent.previousPage API_URL) w)) =
    WarehouseComponent.currentPage (component w) /\
  effects (browser (exec (WarehouseComponent.nextPage API_URL;;
                          WarehouseComponent.previousPage API_URL) w)) =
    effects (browser w) ++
    [HttpSend (WarehouseService.getAll API_URL
                 (Some (WarehouseComponent.currentPage (component w) + 1))
                 (Some (WarehouseComponent.pageSize (component w))));
     HttpSend (WarehouseService.getAll API_URL
                 (Some (WarehouseComponent.currentPage (component w)))
                 (Some (WarehouseComponent.pageSize (component w))))] /\
  WarehouseComponent.wareHouses
    (component (exec (WarehouseComponent.nextPage API_URL;;
                      WarehouseComponent.previousPage API_URL) w)) =
    WarehouseComponent.wareHouses (component w) /\
  WarehouseComponent.totalPages
    (component (exec (WarehouseComponent.nextPage API_URL;;
                      WarehouseComponent.previousPage API_URL) w)) =
    WarehouseComponent.totalPages (component w).
Proof.
  intros Hlo Hlt. rewrite exec_bind, (nextPage_moves API_URL w Hlt).
  rewrite previousPage_moves
    by (cbn [component WarehouseComponent.set_loading WarehouseComponent.set_currentPage
             WarehouseComponent.currentPage]; lia).
  cbn [component browser effects WarehouseComponent.set_loading
       WarehouseComponent.set_currentPage WarehouseComponent.currentPage
       WarehouseComponent.pageSize WarehouseComponent.wareHouses
       WarehouseComponent.totalPages].
  rewrite <- app_assoc. cbn [app].
  replace (WarehouseComponent.currentPage (component w) + 1 - 1)
    with (WarehouseComponent.currentPage (component w)) by lia.
  repeat split.
Qed.

Lemma nextPage_then_previousPage_witness :
  WarehouseComponent.currentPage
    (component (exec (WarehouseComponent.nextPage localApi;;
                      WarehouseComponent.previousPage localApi)
                  (warehousePage [mainWarehouse] 0 3 0))) = 0.
Proof.
  apply (nextPage_then_previousPage localApi (warehousePage [mainWarehouse] 0 3 0)).
  - vm_compute. discriminate.
  - reflexivity.
Defined.

Lemma nextPage_pages (API_URL : string) (w : World WarehouseComponent.t) :
  WarehouseComponent.currentPage (component (exec (WarehouseComponent.nextPage API_URL) w)) =
    (if WarehouseComponent.currentPage (component w) <?
        WarehouseComponent.totalPages (component w) - 1
     then WarehouseComponent.currentPage (component w) + 1
     else WarehouseComponent.currentPage (component w)) /\
  WarehouseComponent.totalPages (component (exec (WarehouseComponent.nextPage API_URL) w)) =
    WarehouseComponent.totalPages (component w) /\
  length (network (browser (exec (WarehouseComponent.nextPage API_URL) w))) =
    (if WarehouseComponent.currentPage (component w) <?
        WarehouseComponent.totalPages (component w) - 1
     then S (length (network (browser w)))
     else length (network (browser w))).
Proof.
  rewrite nextPage_exec. destruct (_ <? _); [| repeat split].
  rewrite loadWarehouses_exec. unfold network. cbn [component browser effects].
  rewrite omap_app, length_app. cbn. repeat split. lia.
Qed.

Lemma previousPage_pages (API_URL : string) (w : World WarehouseComponent.t) :
  WarehouseComponent.currentPage
    (component (exec (WarehouseComponent.previousPage API_URL) w)) =
    (if 0 <? WarehouseComponent.currentPage (component w)
     then WarehouseComponent.currentPage (component w) - 1
     else WarehouseComponent.currentPage (component w)) /\
  length (network (browser (exec (WarehouseComponent.previousPage API_URL) w))) =
    (if 0 <? WarehouseComponent.currentPage (component w)
     then S (length (network (browser w)))
     else length (network (browser w))).
Proof.
  rewrite previousPage_exec. destruct (_ <? _); [| repeat split].
  rewrite loadWarehouses_exec. unfold network. cbn [component browser effects].
  rewrite omap_app, length_app. cbn. repeat split. lia.
Qed.

(** X13: pressing [nextPage] n times without a reply in between stops at
    the last page: from page p of t pages the index ends at
    [max p (min (p + n) (t - 1))], and one request is sent for each page
    actually moved, none for the presses on the last page. *)
Theorem nextPage_repeated (API_URL : string) (n : nat) (w : World WarehouseComponent.t) :
  WarehouseComponent.currentPage
    (component (Nat.iter n (exec (WarehouseComponent.nextPage API_URL)) w)) =
    Z.max (WarehouseComponent.currentPage (component w))
          (Z.min (WarehouseComponent.currentPage (component w) + Z.of_nat n)
                 (WarehouseComponent.totalPages (component w) - 1)) /\
  WarehouseComponent.totalPages
    (component (Nat.iter n (exec (WarehouseComponent.nextPage API_URL)) w)) =
    WarehouseComponent.totalPages (component w) /\
  Z.of_nat (length (network
              (browser (Nat.iter n (exec (WarehouseComponent.nextPage API_URL)) w)))) =
    Z.of_nat (length (network (browser w))) +
    (WarehouseComponent.currentPage
       (component (Nat.iter n (exec (WarehouseComponent.nextPage API_URL)) w)) -
     WarehouseComponent.currentPage (component w)).
Proof.
  induction n as [| n (IHcp & IHtp & IHnet)];
    [cbn [Nat.iter nat_rect] | rewrite !Nat.iter_succ].
  - repeat split; lia.
  - destruct (nextPage_pages API_URL
                (Nat.iter n (exec (WarehouseComponent.nextPage API_URL)) w))
      as (Hcp & Htp & Hnet).
    rewrite Hcp, Htp, Hnet, IHtp.
    destruct (Z.ltb_spec
                (WarehouseComponent.currentPage
                   (component (Nat.iter n (exec (WarehouseComponent.nextPage API_URL)) w)))
                (WarehouseComponent.totalPages (component w) - 1));
      repeat split; lia.
Qed.

(** X14: pressing [previousPage] n times without a reply in between stops
    at the first page: from page p the index ends at [min p (max (p - n) 0)],
    and one request is sent for each page actually moved. *)
Theorem previousPage_repeated (API_URL : string) (n : nat) (w : World WarehouseComponent.t) :
  WarehouseComponent.currentPage
    (component (Nat.iter n (exec (WarehouseComponent.previousPage API_URL)) w)) =
    Z.min (WarehouseComponent.currentPage (component w))
          (Z.max (WarehouseComponent.currentPage (component w) - Z.of_nat n) 0) /\
  Z.of_nat (length (network
              (browser (Nat.iter n (exec (WarehouseComponent.previousPage API_URL)) w)))) =
    Z.of_nat (length (network (browser w))) +
    (WarehouseComponent.currentPage (component w) -
     WarehouseComponent.currentPage
       (component (Nat.iter n (exec (WarehouseComponent.previousPage API_URL)) w))).
Proof.
  induction n as [| n (IHcp & IHnet)];
    [cbn [Nat.iter nat_rect] | rewrite !Nat.iter_succ].
  - split; lia.
  - destruct (previousPage_pages API_URL
                (Nat.iter n (exec (WarehouseComponent.previousPage API_URL)) w))
      as (Hcp & Hnet).
    rewrite Hcp, Hnet.
    destruct (Z.ltb_spec 0
                (WarehouseComponent.currentPage
                   (component (Nat.iter n (exec (WarehouseComponent.previousPage API_URL)) w))));
      split; lia.
Qed.

Lemma step_effects (API_URL : string) (e : WarehouseComponent.Event)
    (w : World WarehouseComponent.t) :
  WarehouseComponent.pageSize (component (exec (WarehouseComponent.step API_URL e) w)) =
    WarehouseComponent.pageSize (component w) /\
  localStorage (browser (exec (WarehouseComponent.step API_URL e) w)) =
    localStorage (browser w) /\
  exists added : list Effect,
    effects (browser (exec (WarehouseComponent.step API_URL e) w)) =
      effects (browser w) ++ added /\
    Forall (page_effect API_URL (WarehouseComponent.pageSize (component w))) added.
Proof.
  destruct e as [| | reply]; cbn [WarehouseComponent.step].
  - rewrite nextPage_exec. destruct (_ <? _).
    + rewrite loadWarehouses_exec. repeat split.
      eexists. split; [reflexivity |].
      constructor; [| constructor]. eexists. reflexivity.
    + repeat split. exists []. split; [now rewrite app_nil_r | constructor].
  - rewrite previousPage_exec. destruct (_ <? _).
    + rewrite loadWarehouses_exec. repeat split.
      eexists. split; [reflexivity |].
      constructor; [| constructor]. eexists. reflexivity.
    + repeat split. exists []. split; [now rewrite app_nil_r | constructor].
  - destruct w as [c [ls es [| n]]].
    + unfold WarehouseComponent.deliver. run_state. repeat split.
      exists []. split; [now rewrite app_nil_r | constructor].
    + rewrite deliver_waiting. destruct reply as [r | err].
      * cbn [component browser localStorage effects].
        repeat split.
        -- now destruct (success r), (data r).
        -- exists []. split; [now rewrite app_nil_r | constructor].
      * repeat split. eexists. split; [reflexivity |].
        constructor; [exact I | constructor].
Qed.

(** X15: whatever the user pages and whatever replies arrive, the
    warehouse page keeps its page size, never writes to local storage,
    and its only effects are console entries and GET requests of the
    warehouse URL for some page with that page size: it shows no toast
    and never navigates. *)
Theorem warehouse_run_effects
    (API_URL : string) (evs : list WarehouseComponent.Event) (w : World WarehouseComponent.t) :
  WarehouseComponent.pageSize (component (WarehouseComponent.run API_URL evs w)) =
    WarehouseComponent.pageSize (component w) /\
  localStorage (browser (WarehouseComponent.run API_URL evs w)) =
    localStorage (browser w) /\
  exists added : list Effect,
    effects (browser (WarehouseComponent.run API_URL evs w)) =
      effects (browser w) ++ added /\
    Forall (page_effect API_URL (WarehouseComponent.pageSize (component w))) added.
Proof.
  revert w. induction evs as [| e evs IH]; intros w; cbn [WarehouseComponent.run foldl].
  - repeat split. exists []. split; [now rewrite app_nil_r | constructor].
  - destruct (step_effects API_URL e w) as (Hps & Hls & a1 & He1 & Ha1).
    destruct (IH (exec (WarehouseComponent.step API_URL e) w)) as (Hps' & Hls' & a2 & He2 & Ha2).
    unfold WarehouseComponent.run in *.
    rewrite Hps', Hls', Hps, Hls. repeat split.
    exists (a1 ++ a2). split.
    + rewrite He2, He1. now rewrite app_assoc.
    + apply Forall_app. split; [exact Ha1 | now rewrite <- Hps].
Qed.

Lemma onPageChange_exec (API_URL : string) (page : Z) (w : World WarehouseComponent.t) :
  exec (WarehouseComponent.onPageChange API_URL page) w =
  {| component :=
       WarehouseComponent.set_loading true
         (WarehouseComponent.set_currentPage page (component w));
     browser :=
       {| localStorage := localStorage (browser w);
          effects := effects (browser w) ++
            [HttpSend (WarehouseService.getAll API_URL (Some page)
                         (Some (WarehouseComponent.pageSize (component w))))];
          inflight := S (inflight (browser w)) |} |}.
Proof.
  unfold WarehouseComponent.onPageChange. rewrite exec_bind, loadWarehouses_exec.
  destruct w as [c b]. now run_state.
Qed.

(** X16: [onPageChange] checks no bound: it stores any page, also a
    negative one or one past the last page, and requests it.  From a
    negative page [previousPage] does nothing, and from a page on or past
    the last one [nextPage] does nothing, so the page buttons do not
    bring the index back into the range from there. *)
Theorem onPageChange_unchecked (API_URL : string) (page : Z) (w : World WarehouseComponent.t) :
  WarehouseComponent.currentPage
    (component (exec (WarehouseComponent.onPageChange API_URL page) w)) = page /\
  effects (browser (exec (WarehouseComponent.onPageChange API_URL page) w)) =
    effects (browser w) ++
    [HttpSend (WarehouseService.getAll API_URL (Some page)
                 (Some (WarehouseComponent.pageSize (component w))))] /\
  (page <= 0 ->
   exec (WarehouseComponent.previousPage API_URL)
     (exec (WarehouseComponent.onPageChange API_URL page) w) =
   exec (WarehouseComponent.onPageChange API_URL page) w) /\
  (WarehouseComponent.totalPages (component w) - 1 <= page ->
   exec (WarehouseComponent.nextPage API_URL)
     (exec (WarehouseComponent.onPageChange API_URL page) w) =
   exec (WarehouseComponent.onPageChange API_URL page) w).
Proof.
  rewrite onPageChange_exec. split; [reflexivity | split; [reflexivity | split]].
  - intros Hneg. rewrite previousPage_exec.
    cbn [component WarehouseComponent.set_loading WarehouseComponent.set_currentPage
         WarehouseComponent.currentPage].
    destruct (Z.ltb_spec 0 page); [lia | reflexivity].
  - intros Hpast. rewrite nextPage_exec.
    cbn [component WarehouseComponent.set_loading WarehouseComponent.set_currentPage
         WarehouseComponent.currentPage WarehouseComponent.totalPages].
    destruct (Z.ltb_spec page (WarehouseComponent.totalPages (component w) - 1));
      [lia | reflexivity].
Qed.

Lemma onPageChange_unchecked_witness :
  exec (WarehouseComponent.previousPage localApi)
    (exec (WarehouseComponent.onPageChange localApi (-2))
       (warehousePage [mainWarehouse] 0 3 0)) =
  exec (WarehouseComponent.onPageChange localApi (-2))
    (warehousePage [mainWarehouse] 0 3 0).
Proof.
  apply (onPageChange_unchecked localApi (-2) (warehousePage [mainWarehouse] 0 3 0)).
  lia.
Defined.

(** * Further properties of the statistics, the filter and the labels *)

Local Open Scope nat_scope.

Lemma filter_three_le {A} (f g h : A -> bool) (l : list A) :
  (forall x, f x = true -> g x = false /\ h x = false) ->
  (forall x, g x = true -> h x = false) ->
  length (List.filter f l) + length (List.filter g l) + length (List.filter h l)
    <= length l /\
  (length (List.filter f l) + length (List.filter g l) + length (List.filter h l)
     = length l <->
   Forall (fun x => f x = true \/ g x = true \/ h x = true) l).
Proof.
  intros Hf Hg. induction l as [| x l [IHle IHeq]]; cbn [List.filter length].
  - split; [lia | split; [constructor | reflexivity]].
  - destruct (f x) eqn:Ef.
    + destruct (Hf x Ef) as [-> ->]. cbn [length]. split; [lia |].
      split.
      * intros H. constructor; [now left | apply IHeq; lia].
      * intros H. inversion H; subst. apply IHeq in H3. lia.
    + destruct (g x) eqn:Eg.
      * rewrite (Hg x Eg). cbn [length]. split; [lia |].
        split.
        -- intros H. constructor; [right; now left | apply IHeq; lia].
        -- intros H. inversion H; subst. apply IHeq in H3. lia.
      * destruct (h x) eqn:Eh; cbn [length]; (split; [lia |]); split.
        -- intros H. constructor; [right; now right | apply IHeq; lia].
        -- intros H. inversion H; subst. apply IHeq in H3. lia.
        -- intros H. lia.
        -- intros H. inversion H; subst. destruct H2 as [? | [? | ?]]; congruence.
Qed.

(** X17: when the three status values are pairwise different, the three
    counts never add up to more than the number of loaded warehouses, and
    they add up to exactly that number if and only if every loaded
    warehouse has one of the three statuses; a warehouse with any other
    status is counted nowhere.  The counts read the loaded list, not the
    filtered one, and change nothing. *)
Theorem status_counts_partition
    (ACTIVE INACTIVE UNDER_MAINTENANCE : string) (w : World WarehouseComponent.t) :
  ACTIVE <> INACTIVE -> ACTIVE <> UNDER_MAINTENANCE -> INACTIVE <> UNDER_MAINTENANCE ->
  eval (WarehouseComponent.getActiveCount ACTIVE) w +
  eval (WarehouseComponent.getInactiveCount INACTIVE) w +
  eval (WarehouseComponent.getMaintenanceCount UNDER_MAINTENANCE) w
    <= length (WarehouseComponent.wareHouses (component w)) /\
  (eval (WarehouseComponent.getActiveCount ACTIVE) w +
   eval (WarehouseComponent.getInactiveCount INACTIVE) w +
   eval (WarehouseComponent.getMaintenanceCount UNDER_MAINTENANCE) w
     = length (WarehouseComponent.wareHouses (component w)) <->
   Forall (fun x => status x = ACTIVE \/ status x = INACTIVE \/
                    status x = UNDER_MAINTENANCE)
          (WarehouseComponent.wareHouses (component w))) /\
  exec (WarehouseComponent.getActiveCount ACTIVE) w = w /\
  exec (WarehouseComponent.getInactiveCount INACTIVE) w = w /\
  exec (WarehouseComponent.getMaintenanceCount UNDER_MAINTENANCE) w = w.
Proof.
  intros Hai Hau Hiu.
  unfold WarehouseComponent.getActiveCount, WarehouseComponent.getInactiveCount,
    WarehouseComponent.getMaintenanceCount.
  run_state.
  destruct (filter_three_le
              (fun x => String.eqb (status x) ACTIVE)
              (fun x => String.eqb (status x) INACTIVE)
              (fun x => String.eqb (status x) UNDER_MAINTENANCE)
              (WarehouseComponent.wareHouses (component w))) as [Hle Heq].
  - intros x Hx. apply String.eqb_eq in Hx.
    split; apply String.eqb_neq; congruence.
  - intros x Hx. apply String.eqb_eq in Hx. apply String.eqb_neq. congruence.
  - split; [exact Hle | split; [| repeat split]].
    rewrite Heq. split; intros H; eapply Forall_impl; try exact H;
      intros x; cbn beta; rewrite !String.eqb_eq; tauto.
Qed.

Lemma status_counts_partition_witness :
  eval (WarehouseComponent.getActiveCount "ACTIVE")
    (warehousePage [mainWarehouse; transitWarehouse] 0 1 0) +
  eval (WarehouseComponent.getInactiveCount "INACTIVE")
    (warehousePage [mainWarehouse; transitWarehouse] 0 1 0) +
  eval (WarehouseComponent.getMaintenanceCount "UNDER_MAINTENANCE")
    (warehousePage [mainWarehouse; transitWarehouse] 0 1 0)
    <= length (WarehouseComponent.wareHouses
                 (component (warehousePage [mainWarehouse; transitWarehouse] 0 1 0))).
Proof.
  apply (status_counts_partition "ACTIVE" "INACTIVE" "UNDER_MAINTENANCE"
           (warehousePage [mainWarehouse; transitWarehouse] 0 1 0));
    discriminate.
Defined.

Lemma falsy_false (s : string) : s <> "" -> falsy s = false.
Proof. destruct s; [congruence | reflexivity]. Qed.

(** X18: the active count is the length of what the filter returns for
    the status filter alone: with [selectedStatus] set to the active
    status (a non-empty string) and no search term and type selected,
    [getFilteredWarehouses] returns exactly the warehouses that
    [getActiveCount] counts. *)
Theorem active_count_is_filtered_length
    (toLowerCase : string -> string) (ACTIVE : string) (w : World WarehouseComponent.t) :
  ACTIVE <> "" ->
  WarehouseComponent.searchTerm (component w) = "" ->
  WarehouseComponent.selectedStatus (component w) = ACTIVE ->
  WarehouseComponent.selectedType (component w) = "" ->
  eval (WarehouseComponent.getActiveCount ACTIVE) w =
  length (eval (WarehouseComponent.getFilteredWarehouses toLowerCase) w).
Proof.
  intros Hne Hs Hst Hty.
  unfold WarehouseComponent.getActiveCount, WarehouseComponent.getFilteredWarehouses.
  run_state. f_equal. apply List.filter_ext. intros x.
  unfold WarehouseComponent.matchesFilters. rewrite Hs, Hst, Hty, (falsy_false _ Hne).
  cbn. now rewrite andb_true_r.
Qed.

Lemma active_count_is_filtered_length_witness :
  eval (WarehouseComponent.getActiveCount "ACTIVE")
    {| component :=
         WarehouseComponent.set_filters "" "ACTIVE" ""
           (component (warehousePage [mainWarehouse; transitWarehouse] 0 1 0));
       browser := emptyBrowser |} =
  length (eval (WarehouseComponent.getFilteredWarehouses asciiLower)
            {| component :=
                 WarehouseComponent.set_filters "" "ACTIVE" ""
                   (component (warehousePage [mainWarehouse; transitWarehouse] 0 1 0));
               browser := emptyBrowser |}).
Proof.
  apply (active_count_is_filtered_length asciiLower "ACTIVE"
           {| component :=
                WarehouseComponent.set_filters "" "ACTIVE" ""
                  (component (warehousePage [mainWarehouse; transitWarehouse] 0 1 0));
              browser := emptyBrowser |});
    [discriminate | reflexivity | reflexivity | reflexivity].
Defined.

(** X19: every warehouse that [getFilteredWarehouses] returns is a loaded
    one and passes each filter that is set: it has the selected status if
    one is selected, the selected type if one is selected, and, if a
    search term is entered, its lower-cased name, code or address
    contains the lower-cased term. *)
Theorem filtered_warehouses_pass_filters
    (toLowerCase : string -> string) (w : World WarehouseComponent.t)
    (x : WareHouseResponse) :
  In x (eval (WarehouseComponent.getFilteredWarehouses toLowerCase) w) ->
  In x (WarehouseComponent.wareHouses (component w)) /\
  (WarehouseComponent.selectedStatus (component w) <> "" ->
   status x = WarehouseComponent.selectedStatus (component w)) /\
  (WarehouseComponent.selectedType (component w) <> "" ->
   ware_house_type x = WarehouseComponent.selectedType (component w)) /\
  (WarehouseComponent.searchTerm (component w) <> "" ->
   includes (toLowerCase (name x))
            (toLowerCase (WarehouseComponent.searchTerm (component w))) = true \/
   includes (toLowerCase (code x))
            (toLowerCase (WarehouseComponent.searchTerm (component w))) = true \/
   includes (toLowerCase (address x))
            (toLowerCase (WarehouseComponent.searchTerm (component w))) = true).
Proof.
  unfold WarehouseComponent.getFilteredWarehouses. run_state.
  intros Hin. apply List.filter_In in Hin. destruct Hin as [Hin Hm].
  split; [exact Hin |].
  unfold WarehouseComponent.matchesFilters in Hm.
  apply andb_true_iff in Hm. destruct Hm as [Hm Hty].
  apply andb_true_iff in Hm. destruct Hm as [Hse Hst].
  split; [| split].
  - intros Hne. rewrite (falsy_false _ Hne) in Hst. now apply String.eqb_eq.
  - intros Hne. rewrite (falsy_false _ Hne) in Hty. now apply String.eqb_eq.
  - intros Hne. rewrite (falsy_false _ Hne) in Hse. cbn [orb] in Hse.
    apply orb_true_iff in Hse. destruct Hse as [Hse | Hse]; [| now right; right].
    apply orb_true_iff in Hse. destruct Hse as [Hse | Hse]; [now left | right; now left].
Qed.

Lemma filtered_warehouses_pass_filters_witness :
  status transitWarehouse = "INACTIVE".
Proof.
  apply (filtered_warehouses_pass_filters asciiLower
           {| component :=
                WarehouseComponent.set_filters "da nang" "INACTIVE" ""
                  (component (warehousePage [mainWarehouse; transitWarehouse] 0 1 0));
              browser := emptyBrowser |}
           transitWarehouse).
  - vm_compute. left. reflexivity.
  - discriminate.
Defined.

(** X20: the search does not depend on the case of the term: for a
    lower-casing that is idempotent and maps only the empty string to the
    empty string, searching for a term and searching for its lower-cased
    form return the same warehouses. *)
Theorem search_ignores_case_of_term
    (toLowerCase : string -> string) (term st ty : string) (w : World WarehouseComponent.t) :
  (forall s, toLowerCase (toLowerCase s) = toLowerCase s) ->
  (forall s, falsy (toLowerCase s) = falsy s) ->
  eval (WarehouseComponent.getFilteredWarehouses toLowerCase)
    {| component := WarehouseComponent.set_filters term st ty (component w);
       browser := browser w |} =
  eval (WarehouseComponent.getFilteredWarehouses toLowerCase)
    {| component := WarehouseComponent.set_filters (toLowerCase term) st ty (component w);
       browser := browser w |}.
Proof.
  intros Hidem Hfalsy.
  unfold WarehouseComponent.getFilteredWarehouses. run_state.
  cbn [WarehouseComponent.set_filters WarehouseComponent.wareHouses].
  apply List.filter_ext. intros x. unfold WarehouseComponent.matchesFilters.
  unfold WarehouseComponent.set_filters.
  cbn [WarehouseComponent.searchTerm WarehouseComponent.selectedStatus
       WarehouseComponent.selectedType].
  now rewrite Hidem, Hfalsy.
Qed.

Lemma asciiLower_idempotent (s : string) : asciiLower (asciiLower s) = asciiLower s.
Proof.
  induction s as [| c s IH]; cbn [asciiLower]; [reflexivity |].
  rewrite IH. f_equal.
  destruct ((65 <=? nat_of_ascii c) && (nat_of_ascii c <=? 90)) eqn:E; [| now rewrite E].
  apply andb_true_iff in E. destruct E as [E1 E2].
  apply Nat.leb_le in E1, E2.
  rewrite nat_ascii_embedding by lia.
  destruct (Nat.leb_spec (nat_of_ascii c + 32) 90) as [H | H]; [lia |].
  now rewrite andb_false_r.
Qed.

Lemma asciiLower_falsy (s : string) : falsy (asciiLower s) = falsy s.
Proof. now destruct s. Qed.

Lemma search_ignores_case_of_term_witness :
  eval (WarehouseComponent.getFilteredWarehouses asciiLower)
    {| component :=
         WarehouseComponent.set_filters "KHO DA" "" ""
           (component (warehousePage [mainWarehouse; transitWarehouse] 0 1 0));
       browser := browser (warehousePage [mainWarehouse; transitWarehouse] 0 1 0) |} =
  eval (WarehouseComponent.getFilteredWarehouses asciiLower)
    {| component :=
         WarehouseComponent.set_filters (asciiLower "KHO DA") "" ""
           (component (warehousePage [mainWarehouse; transitWarehouse] 0 1 0));
       browser := browser (warehousePage [mainWarehouse; transitWarehouse] 0 1 0) |}.
Proof.
  apply (search_ignores_case_of_term asciiLower "KHO DA" "" ""
           (warehousePage [mainWarehouse; transitWarehouse] 0 1 0)).
  - exact asciiLower_idempotent.
  - exact asciiLower_falsy.
Defined.

(** ** The label helpers *)

Lemma labelOf_own (map : gmap string string) (key v : string) :
  key <> "" -> v <> "" -> map !! key = Some v ->
  WarehouseComponent.labelOf map (Some key) = Str v.
Proof.
  intros Hk Hv Hl. unfold WarehouseComponent.labelOf, member, or_else.
  rewrite (falsy_false _ Hk), Hl. now rewrite (falsy_false _ Hv).
Qed.

Lemma labelOf_unknown (map : gmap string string) (key : string) :
  key <> "" -> map !! key = None -> ~ In key Object_prototype ->
  WarehouseComponent.labelOf map (Some key) = Str key.
Proof.
  intros Hk Hl Hp. unfold WarehouseComponent.labelOf, member.
  cbn [or_else]. rewrite (falsy_false _ Hk), Hl.
  rewrite bool_decide_eq_false_2; [reflexivity |].
  intros Hin. apply Hp. now apply list_elem_of_In.
Qed.

Lemma labelOf_missing (map : gmap string string) (key : option string) :
  map !! "" = None ->
  key = None \/ key = Some "" ->
  WarehouseComponent.labelOf map key = Str "Không xác định".
Proof.
  intros Hl [-> | ->]; unfold WarehouseComponent.labelOf, member; cbn [or_else falsy];
    cbn; now rewrite Hl.
Qed.

Lemma labelOf_not_empty (map : gmap string string) (key : option string) :
  WarehouseComponent.labelOf map key <> Str "".
Proof.
  unfold WarehouseComponent.labelOf.
  destruct (member map (or_else key "")) as [[v | k] |].
  - destruct (falsy v) eqn:E.
    + destruct key as [[| a s] |]; discriminate.
    + intros H. injection H as ->. discriminate.
  - discriminate.
  - destruct key as [[| a s] |]; discriminate.
Qed.

(** X21: [getStatusLabel] maps the three known statuses to their labels;
    an undefined or empty status gives the "unknown" label; any other
    status is echoed as it is, unless it names a member that the lookup
    table inherits from [Object.prototype], in which case that member,
    not a string, is returned.  The result is never the empty string. *)
Theorem getStatusLabel_fallbacks (status : option string) :
  WarehouseComponent.getStatusLabel (Some "ACTIVE") = Str "Hoạt động" /\
  WarehouseComponent.getStatusLabel (Some "INACTIVE") = Str "Ngừng hoạt động" /\
  WarehouseComponent.getStatusLabel (Some "UNDER_MAINTENANCE") = Str "Bảo trì" /\
  WarehouseComponent.getStatusLabel None = Str "Không xác định" /\
  WarehouseComponent.getStatusLabel (Some "") = Str "Không xác định" /\
  (forall s : string,
     s <> "" -> s <> "ACTIVE" -> s <> "INACTIVE" -> s <> "UNDER_MAINTENANCE" ->
     ~ In s Object_prototype ->
     WarehouseComponent.getStatusLabel (Some s) = Str s) /\
  (forall s : string,
     In s Object_prototype ->
     WarehouseComponent.getStatusLabel (Some s) = Inherited s) /\
  WarehouseComponent.getStatusLabel status <> Str "".
Proof.
  unfold WarehouseComponent.getStatusLabel.
  split; [| split; [| split; [| split; [| split; [| split; [| split]]]]]].
  - apply labelOf_own; [discriminate | discriminate | reflexivity].
  - apply labelOf_own; [discriminate | discriminate | reflexivity].
  - apply labelOf_own; [discriminate | discriminate | reflexivity].
  - apply labelOf_missing; [reflexivity | now left].
  - apply labelOf_missing; [reflexivity | now right].
  - intros s Hne Ha Hi Hu Hp. apply labelOf_unknown; [exact Hne | | exact Hp].
    unfold WarehouseComponent.statusMap.
    rewrite !lookup_insert_ne by congruence. apply lookup_empty.
  - intros s Hin. cbn [In Object_prototype] in Hin.
    repeat (destruct Hin as [<- | Hin]; [vm_compute; reflexivity |]).
    destruct Hin.
  - apply labelOf_not_empty.
Qed.

Lemma getStatusLabel_fallbacks_witness :
  WarehouseComponent.getStatusLabel (Some "ARCHIVED") = Str "ARCHIVED".
Proof.
  apply (getStatusLabel_fallbacks None); try discriminate.
  cbn [In Object_prototype]. intros H.
  repeat (destruct H as [H | H]; [discriminate H |]). exact H.
Defined.

(** X22: [getTypeLabel] maps the four known types to their labels; an
    undefined or empty type gives the "unknown" label; any other type is
    echoed as it is, unless it names a member inherited from
    [Object.prototype], which is then returned instead of a string.  The
    result is never the empty string. *)
Theorem getTypeLabel_fallbacks (type : option string) :
  WarehouseComponent.getTypeLabel (Some "MAIN") = Str "Kho chính" /\
  WarehouseComponent.getTypeLabel (Some "SATELLITE") = Str "Kho vệ tinh" /\
  WarehouseComponent.getTypeLabel (Some "TRANSIT") = Str "Kho trung chuyển" /\
  WarehouseComponent.getTypeLabel (Some "RETURN") = Str "Kho hoàn trả" /\
  WarehouseComponent.getTypeLabel None = Str "Không xác định" /\
  WarehouseComponent.getTypeLabel (Some "") = Str "Không xác định" /\
  (forall s : string,
     s <> "" -> s <> "MAIN" -> s <> "SATELLITE" -> s <> "TRANSIT" -> s <> "RETURN" ->
     ~ In s Object_prototype ->
     WarehouseComponent.getTypeLabel (Some s) = Str s) /\
  (forall s : string,
     In s Object_prototype ->
     WarehouseComponent.getTypeLabel (Some s) = Inherited s) /\
  WarehouseComponent.getTypeLabel type <> Str "".
Proof.
  unfold WarehouseComponent.getTypeLabel.
  split; [| split; [| split; [| split; [| split; [| split; [| split; [| split]]]]]]].
  - apply labelOf_own; [discriminate | discriminate | reflexivity].
  - apply labelOf_own; [discriminate | discriminate | reflexivity].
  - apply labelOf_own; [discriminate | discriminate | reflexivity].
  - apply labelOf_own; [discriminate | discriminate | reflexivity].
  - apply labelOf_missing; [reflexivity | now left].
  - apply labelOf_missing; [reflexivity | now right].
  - intros s Hne Hm Hs Ht Hr Hp. apply labelOf_unknown; [exact Hne | | exact Hp].
    unfold WarehouseComponent.typeMap.
    rewrite !lookup_insert_ne by congruence. apply lookup_empty.
  - intros s Hin. cbn [In Object_prototype] in Hin.
    repeat (destruct Hin as [<- | Hin]; [vm_compute; reflexivity |]).
    destruct Hin.
  - apply labelOf_not_empty.
Qed.

Lemma getTypeLabel_fallbacks_witness :
  WarehouseComponent.getTypeLabel (Some "COLD_STORAGE") = Str "COLD_STORAGE".
Proof.
  apply (getTypeLabel_fallbacks None); try discriminate.
  cbn [In Object_prototype]. intros H.
  repeat (destruct H as [H | H]; [discriminate H |]). exact H.
Defined.

(** * Further properties of the routes *)

(** X23: the route table leaves no URL unmatched: every URL, given by
    its segments, ends on the login page, except the URL made of the one
    segment [register], which ends on the register page; the empty URL
    and every unknown URL are redirected to [login]. *)
Theorem every_url_resolves (url : list string) :
  AppRoutingModule.resolve (S (length AppRoutingModule.routes)) url =
  Some (if bool_decide (url = ["register"])
        then AppRoutingModule.RegisterPage
        else AppRoutingModule.LoginPage).
Proof.
  destruct url as [| a [| b l]].
  - reflexivity.
  - destruct (decide (a = "login")) as [-> | Hl]; [reflexivity |].
    destruct (decide (a = "register")) as [-> | Hr]; [reflexivity |].
    cbn [length AppRoutingModule.routes AppRoutingModule.resolve List.find
         AppRoutingModule.matches AppRoutingModule.path String.eqb falsy
         String.length Nat.eqb Ascii.eqb Bool.eqb].
    cbn [length Nat.eqb].
    rewrite !bool_decide_eq_false_2 by congruence. reflexivity.
  - cbn [length AppRoutingModule.routes AppRoutingModule.resolve List.find
         AppRoutingModule.matches AppRoutingModule.path String.eqb falsy
         String.length Nat.eqb Ascii.eqb Bool.eqb].
    cbn [length Nat.eqb].
    rewrite !bool_decide_eq_false_2 by discriminate. reflexivity.
Qed.

(** * The request that is in step with the page *)

Local Open Scope Z_scope.

Lemma network_effects_app (ls : gmap string string) (es : list Effect) (n : nat)
    (r : HttpRequest) :
  network {| localStorage := ls; effects := es ++ [HttpSend r]; inflight := n |} =
  omap (fun e => match e with HttpSend r => Some r | _ => None end) es ++ [r].
Proof. unfold network. cbn [effects]. now rewrite omap_app. Qed.

Lemma step_last_request (API_URL : string) (e : WarehouseComponent.Event)
    (w : World WarehouseComponent.t) :
  last (network (browser w)) =
    Some (WarehouseService.getAll API_URL
            (Some (WarehouseComponent.currentPage (component w)))
            (Some (WarehouseComponent.pageSize (component w)))) ->
  last (network (browser (exec (WarehouseComponent.step API_URL e) w))) =
    Some (WarehouseService.getAll API_URL
            (Some (WarehouseComponent.currentPage
                     (component (exec (WarehouseComponent.step API_URL e) w))))
            (Some (WarehouseComponent.pageSize
                     (component (exec (WarehouseComponent.step API_URL e) w))))).
Proof.
  intros Hlast. destruct e as [| | reply]; cbn [WarehouseComponent.step].
  - rewrite nextPage_exec. destruct (_ <? _); [| exact Hlast].
    rewrite loadWarehouses_exec. cbn [browser component]. rewrite network_effects_app.
    now rewrite last_snoc.
  - rewrite previousPage_exec. destruct (_ <? _); [| exact Hlast].
    rewrite loadWarehouses_exec. cbn [browser component]. rewrite network_effects_app.
    now rewrite last_snoc.
  - destruct w as [c [ls es [| n]]].
    + unfold WarehouseComponent.deliver. run_state. exact Hlast.
    + rewrite deliver_waiting. destruct reply as [r | err].
      * cbn [browser component] in *. unfold network in *. cbn [effects] in *.
        rewrite Hlast. now destruct (success r), (data r).
      * cbn [browser component] in *. unfold network in *. cbn [effects] in *.
        rewrite omap_app. cbn [omap list_omap]. rewrite app_nil_r. exact Hlast.
Qed.

(** X24: the most recent request is always the one for the page the
    component is on: from the opened page, after every sequence of
    [nextPage] and [previousPage] calls and of replies, the last request
    sent asks for [currentPage] with [pageSize]. *)
Theorem last_request_is_for_current_page
    (API_URL : string) (b : Browser) (evs : list WarehouseComponent.Event) :
  last (network (browser (WarehouseComponent.run API_URL evs (openPage API_URL b)))) =
  Some (WarehouseService.getAll API_URL
          (Some (WarehouseComponent.currentPage
                   (component (WarehouseComponent.run API_URL evs (openPage API_URL b)))))
          (Some (WarehouseComponent.pageSize
                   (component (WarehouseComponent.run API_URL evs (openPage API_URL b)))))).
Proof.
  assert (Hgen : forall w : World WarehouseComponent.t,
            last (network (browser w)) =
              Some (WarehouseService.getAll API_URL
                      (Some (WarehouseComponent.currentPage (component w)))
                      (Some (WarehouseComponent.pageSize (component w)))) ->
            last (network (browser (WarehouseComponent.run API_URL evs w))) =
              Some (WarehouseService.getAll API_URL
                      (Some (WarehouseComponent.currentPage
                               (component (WarehouseComponent.run API_URL evs w))))
                      (Some (WarehouseComponent.pageSize
                               (component (WarehouseComponent.run API_URL evs w)))))).
  { induction evs as [| e evs IH]; intros w Hw; cbn [WarehouseComponent.run foldl].
    - exact Hw.
    - apply IH. now apply step_last_request. }
  apply Hgen. unfold openPage, WarehouseComponent.ngOnInit.
  rewrite loadWarehouses_exec. cbn [browser component]. rewrite network_effects_app.
  now rewrite last_snoc.
Qed.
